(** * azuredevops2terraform: extraction and Terraform generation

    A shallow embedding of the four scripts of the repository:

    - [extract_azure_devops_api_data.py]: the paginated fetch loop and the
      page-shape heuristic that feeds [all_data];
    - [terraform_azure_devops_project.py], [terraform_azure_devops_repos.py],
      [terraform_azure_devops_variablegroups.py]: the three generators that
      turn one decoded JSON record into a [resource] block and an [import]
      block.

    Conventions of the embedding.

    - A Python [str] is a [string]; one [ascii] stands for one code point
      U+0000..U+00FF, so the strings covered are the Latin-1 ones.  On that
      range [str.lower], [repr] and [json.dumps] are modelled exactly.
    - A decoded JSON value is a [json]; a [dict] is the list of its items in
      insertion order, which is the order [dict.items()] walks.
    - A Python call either returns or raises: [outcome]. *)

From Stdlib Require Import String Ascii List ZArith Bool Arith Lia DecimalString.
From Stdlib Require Import Zify ZifyNat.
Import ListNotations.
Open Scope string_scope.
Open Scope list_scope.

(** ** Characters and Python string methods *)

Definition chr (n : nat) : string := String (ascii_of_nat n) EmptyString.

(** The double quote and the line feed, as one-character strings. *)
Definition dq : string := chr 34.
Definition nl : string := chr 10.

Definition code (c : ascii) : nat := nat_of_ascii c.

Definition between (lo hi n : nat) : bool := Nat.leb lo n && Nat.leb n hi.

(** [str.lower()] on one Latin-1 code point: A-Z, and the accented capitals
    U+00C0..U+00DE except the multiplication sign U+00D7, move up by 32. *)
Definition lower_char (c : ascii) : ascii :=
  let n := code c in
  if between 65 90 n then ascii_of_nat (n + 32)
  else if between 192 222 n && negb (Nat.eqb n 215) then ascii_of_nat (n + 32)
  else c.

Fixpoint lower (s : string) : string :=
  match s with
  | EmptyString => EmptyString
  | String c r => String (lower_char c) (lower r)
  end.

(** Membership in the character class [a-z0-9]. *)
Definition alnum (c : ascii) : bool :=
  between 97 122 (code c) || between 48 57 (code c).

Definition is_us (c : ascii) : bool := Ascii.eqb c "_"%char.

(** [re.sub(r'[^a-z0-9]+', '_', s)].  The scan goes left to right;
    [in_match] says that the characters just read belong to a match of
    [[^a-z0-9]+] that is still being extended (the quantifier is greedy), so
    its replacement has already been written. *)
Fixpoint re_sub_scan (in_match : bool) (s : string) : string :=
  match s with
  | EmptyString => EmptyString
  | String c r =>
      if alnum c then String c (re_sub_scan false r)
      else if in_match then re_sub_scan true r
      else String "_"%char (re_sub_scan true r)
  end.

Definition re_sub (s : string) : string := re_sub_scan false s.

(** [s.lstrip('_')] and [s.rstrip('_')]; [s.strip('_')] does both. *)
Fixpoint lstrip (s : string) : string :=
  match s with
  | EmptyString => EmptyString
  | String c r => if is_us c then lstrip r else s
  end.

Fixpoint rstrip (s : string) : string :=
  match s with
  | EmptyString => EmptyString
  | String c r =>
      match rstrip r with
      | EmptyString => if is_us c then EmptyString else String c EmptyString
      | r' => String c r'
      end
  end.

Definition strip (s : string) : string := rstrip (lstrip s).

(** Truth value of a [str]: the empty string is falsy. *)
Definition str_truthy (s : string) : bool :=
  match s with EmptyString => false | _ => true end.

(** The identifier derivation every generator inlines:
<<
    x = re.sub(r'[^a-z0-9]+', '_', name.lower()).strip('_')
    if not x:
        x = fallback
>> *)
Definition sanitize (name fallback : string) : string :=
  let x := strip (re_sub (lower name)) in
  if str_truthy x then x else fallback.

(** The fallback constants of the generators. *)
Definition fallbacks : list string :=
  [ "unnamed_project"; "unnamed_repository"; "unnamed_project_ref";
    "unnamed_variablegroup" ].

(** ** The sanitizer as the specification words it

    Lowercase; replace every maximal run of characters outside [a-z0-9] by
    one underscore; strip leading and trailing underscores; fall back when
    nothing is left. *)

(** The maximal runs of [s]: consecutive characters that are all outside the
    class ([true]) or all inside it ([false]). *)
Fixpoint maximal_runs (s : string) : list (bool * string) :=
  match s with
  | EmptyString => []
  | String c r =>
      let out := negb (alnum c) in
      match maximal_runs r with
      | (out', run) :: rest =>
          if Bool.eqb out out' then (out, String c run) :: rest
          else (out, String c EmptyString) :: (out', run) :: rest
      | [] => [(out, String c EmptyString)]
      end
  end.


Fixpoint join (l : list string) : string :=
  match l with
  | [] => EmptyString
  | x :: r => (x ++ join r)%string
  end.



(** ** Decoded JSON values *)

(** A Python [float], carried by what the scripts can observe of it: its
    truth value ([x != 0.0]), its [repr] and the text [json.dumps] gives. *)
Record pyfloat := {
  float_nonzero : bool;
  float_repr : string;
  float_json : string
}.

(** The values [json.loads] builds.  [JNull] is Python's [None]; [JInt] is an
    [int] of any size; [JObj] lists the items of a [dict] in insertion
    order. *)
#[local] Set Warnings "-register-all".

Inductive json : Type :=
| JNull
| JBool (b : bool)
| JInt (n : Z)
| JFloat (x : pyfloat)
| JStr (s : string)
| JArr (elements : list json)
| JObj (items : list (string * json)).

(** Truth value, as [not x], [if x:] and [all([...])] use it. *)
Definition truthy (v : json) : bool :=
  match v with
  | JNull => false
  | JBool b => b
  | JInt n => negb (Z.eqb n 0)
  | JFloat x => float_nonzero x
  | JStr s => str_truthy s
  | JArr [] => false
  | JArr (_ :: _) => true
  | JObj [] => false
  | JObj (_ :: _) => true
  end.

(** [all(l)] *)
Definition all (l : list json) : bool := forallb truthy l.

Definition isinstance_dict (v : json) : bool :=
  match v with JObj _ => true | _ => false end.

Definition isinstance_list (v : json) : bool :=
  match v with JArr _ => true | _ => false end.

(** Lookup of a key among the items of a [dict]. *)
Fixpoint dict_get (items : list (string * json)) (key : string) : option json :=
  match items with
  | [] => None
  | (k, v) :: rest => if String.eqb k key then Some v else dict_get rest key
  end.

(** ** Outcomes of Python calls *)

Inductive exn : Type :=
| AttributeError
| RequestException
| JSONDecodeError.

Inductive outcome (A : Type) : Type :=
| Returned (a : A)
| Raised (e : exn).

Arguments Returned {A} a.
Arguments Raised {A} e.

Definition bind {A B : Type} (m : outcome A) (k : A -> outcome B) : outcome B :=
  match m with
  | Returned a => k a
  | Raised e => Raised e
  end.

Notation "x <- m ;; k" := (bind m (fun x => k))
  (at level 61, m at next level, right associativity).

(** [d.get(key, default)] on the items of a [dict]. *)
Definition get_default (items : list (string * json)) (key : string)
    (default : json) : json :=
  match dict_get items key with
  | Some x => x
  | None => default
  end.

(** [v.get(key, default)]: only a [dict] has the attribute [get]. *)
Definition py_get (v : json) (key : string) (default : json) : outcome json :=
  match v with
  | JObj items => Returned (get_default items key default)
  | _ => Raised AttributeError
  end.

(** [v.lower()]: only a [str] has the attribute [lower]. *)
Definition py_lower (v : json) : outcome string :=
  match v with
  | JStr s => Returned (lower s)
  | _ => Raised AttributeError
  end.

(** [v.items()]: only a [dict] has the attribute [items]. *)
Definition py_items (v : json) : outcome (list (string * json)) :=
  match v with
  | JObj items => Returned items
  | _ => Raised AttributeError
  end.

(** ** Text of values: [str], [repr], [json.dumps] *)

Definition string_of_Z (n : Z) : string := NilZero.string_of_int (Z.to_int n).

Definition hex_digit (n : nat) : string :=
  String.substring n 1 "0123456789abcdef".

Definition hex2 (n : nat) : string :=
  (hex_digit (n / 16) ++ hex_digit (n mod 16))%string.

Fixpoint contains_char (c : ascii) (s : string) : bool :=
  match s with
  | EmptyString => false
  | String d r => Ascii.eqb c d || contains_char c r
  end.

Fixpoint map_join (f : ascii -> string) (s : string) : string :=
  match s with
  | EmptyString => EmptyString
  | String c r => (f c ++ map_join f r)%string
  end.

Fixpoint sep_join (sep : string) (l : list string) : string :=
  match l with
  | [] => EmptyString
  | [x] => x
  | x :: r => (x ++ sep ++ sep_join sep r)%string
  end.

Definition backslash : ascii := ascii_of_nat 92.
Definition quote1 : ascii := ascii_of_nat 39.
Definition quote2 : ascii := ascii_of_nat 34.

(** One character under [repr] of a [str] quoted with [q].  Not printable on
    Latin-1: the controls below U+0020, U+007F..U+00A0 and U+00AD. *)
Definition repr_char (q c : ascii) : string :=
  let n := code c in
  if Ascii.eqb c q || Ascii.eqb c backslash then String backslash (String c EmptyString)
  else if Nat.eqb n 9 then String backslash "t"
  else if Nat.eqb n 10 then String backslash "n"
  else if Nat.eqb n 13 then String backslash "r"
  else if Nat.ltb n 32 || between 127 160 n || Nat.eqb n 173
       then (String backslash "x" ++ hex2 n)%string
  else String c EmptyString.

(** [repr(s)]: single quotes, unless [s] has a single quote and no double
    quote. *)
Definition repr_str (s : string) : string :=
  let q := if contains_char quote1 s && negb (contains_char quote2 s)
           then quote2 else quote1 in
  (String q (map_join (repr_char q) s) ++ String q EmptyString)%string.

Fixpoint py_repr (v : json) : string :=
  match v with
  | JNull => "None"
  | JBool true => "True"
  | JBool false => "False"
  | JInt n => string_of_Z n
  | JFloat x => float_repr x
  | JStr s => repr_str s
  | JArr l => ("[" ++ sep_join ", " (map py_repr l) ++ "]")%string
  | JObj l =>
      ("{" ++ sep_join ", "
         (map (fun kv => match kv with
                         | (k, x) => (repr_str k ++ ": " ++ py_repr x)%string
                         end) l) ++ "}")%string
  end.

(** [str(v)], which is also what [{v}] in an f-string writes. *)
Definition py_str (v : json) : string :=
  match v with
  | JStr s => s
  | _ => py_repr v
  end.

(** One character under [json.dumps] with [ensure_ascii] left at its default:
    everything outside U+0020..U+007E is escaped. *)
Definition json_escape_char (c : ascii) : string :=
  let n := code c in
  if Nat.eqb n 34 then String backslash dq
  else if Nat.eqb n 92 then String backslash (String backslash EmptyString)
  else if Nat.eqb n 10 then String backslash "n"
  else if Nat.eqb n 13 then String backslash "r"
  else if Nat.eqb n 9 then String backslash "t"
  else if Nat.eqb n 8 then String backslash "b"
  else if Nat.eqb n 12 then String backslash "f"
  else if between 32 126 n then String c EmptyString
  else (String backslash "u00" ++ hex2 n)%string.

Definition json_dumps_str (s : string) : string :=
  (dq ++ map_join json_escape_char s ++ dq)%string.

(** [json.dumps(v)] with the default separators. *)
Fixpoint json_dumps (v : json) : string :=
  match v with
  | JNull => "null"
  | JBool true => "true"
  | JBool false => "false"
  | JInt n => string_of_Z n
  | JFloat x => float_json x
  | JStr s => json_dumps_str s
  | JArr l => ("[" ++ sep_join ", " (map json_dumps l) ++ "]")%string
  | JObj l =>
      ("{" ++ sep_join ", "
         (map (fun kv => match kv with
                         | (k, x) => (json_dumps_str k ++ ": " ++ json_dumps x)%string
                         end) l) ++ "}")%string
  end.

(** ** extract_azure_devops_api_data.py *)

(** The first value of [page_data.items()] that is a list (the [for] loop
    with its [break]). *)
Fixpoint first_list (items : list (string * json)) : option (list json) :=
  match items with
  | [] => None
  | (_, JArr value) :: _ => Some value
  | _ :: rest => first_list rest
  end.

(** What one page adds to [all_data]: the [if]/[elif] chain under
    "Logica GENERICA", with [extend] giving the elements and [append] the
    page itself. *)
Definition normalize (page_data : json) : list json :=
  match page_data with
  | JObj items =>
      match dict_get items "value" with
      | Some (JArr value) => value
      | _ =>
          match first_list items with
          | Some value => value
          | None => [page_data]
          end
      end
  | JArr elements => elements
  | _ => [page_data]
  end.

(** The resolution rules as the specification lists them, each a partial
    function, tried in order. *)
Definition rule_value (page : json) : option (list json) :=
  match page with
  | JObj items =>
      match dict_get items "value" with
      | Some (JArr l) => Some l
      | _ => None
      end
  | _ => None
  end.

Definition rule_array (page : json) : option (list json) :=
  match page with
  | JArr l => Some l
  | _ => None
  end.

Definition rule_first_array_entry (page : json) : option (list json) :=
  match page with
  | JObj items =>
      match find (fun kv => isinstance_list (snd kv)) items with
      | Some (_, JArr l) => Some l
      | _ => None
      end
  | _ => None
  end.

Definition resolution_rules : list (json -> option (list json)) :=
  [ rule_value; rule_array; rule_first_array_entry ].

Fixpoint first_match (rules : list (json -> option (list json))) (page : json)
  : list json :=
  match rules with
  | [] => [page]
  | rule :: rest =>
      match rule page with
      | Some l => l
      | None => first_match rest page
      end
  end.

Definition normalize_spec (page : json) : list json :=
  first_match resolution_rules page.

(** Response headers: [requests] keeps them in a case-insensitive mapping,
    so [headers.get(name)] compares lowercased names. *)
Definition headers := list (string * string).

Fixpoint headers_get (h : headers) (name : string) : option string :=
  match h with
  | [] => None
  | (k, v) :: rest =>
      if String.eqb (lower k) (lower name) then Some v else headers_get rest name
  end.

(** Truth value of [continuation_token], which is [None] or a [str]. *)
Definition token_truthy (t : option string) : bool :=
  match t with
  | Some s => str_truthy s
  | None => false
  end.

(** The token a page hands on:
<<
    continuation_token = response.headers.get('x-ms-continuationtoken')
    if not continuation_token:
        continuation_token = response.headers.get('ContinuationToken')
>> *)
Definition next_token (h : headers) : option string :=
  let continuation_token := headers_get h "x-ms-continuationtoken" in
  if negb (token_truthy continuation_token)
  then headers_get h "ContinuationToken"
  else continuation_token.

(** What [requests.get], [raise_for_status] and [response.json()] make of one
    request. *)
Inductive response : Type :=
| Failed
| Undecodable (h : headers)
| Page (page_data : json) (h : headers).

(** The URL of a request:
<<
    request_url = current_url
    if continuation_token:
        request_url = f"{current_url}{'&' if '?' in current_url else '?'}continuationToken={continuation_token}"
>> *)
Definition request_url (current_url : string) (continuation_token : option string)
  : string :=
  match continuation_token with
  | Some t =>
      if str_truthy t
      then (current_url
              ++ (if contains_char "?"%char current_url then "&" else "?")
              ++ "continuationToken=" ++ t)%string
      else current_url
  | None => current_url
  end.

(** How a fetch ends. [Fetched] carries [all_data] and the URLs requested, in
    order; [Aborted] the exception re-raised and the URL it is reported with;
    [StillFetching] stands for a loop that the fuel given did not see end. *)
Inductive fetch_result : Type :=
| Fetched (all_data : list json) (requested : list string)
| Aborted (e : exn) (url : string) (requested : list string)
| StillFetching.

(** The [while True] loop.  [requests_get n] is the response to the request
    number [n] (from 0); [fuel] bounds the number of iterations. *)
Fixpoint fetch_loop (requests_get : nat -> response) (current_url : string)
    (fuel : nat) (n : nat) (continuation_token : option string)
    (all_data : list json) (requested : list string) : fetch_result :=
  match fuel with
  | O => StillFetching
  | S fuel' =>
      let url := request_url current_url continuation_token in
      let requested := requested ++ [url] in
      match requests_get n with
      | Failed => Aborted RequestException url requested
      | Undecodable _ => Aborted JSONDecodeError url requested
      | Page page_data h =>
          let all_data := all_data ++ normalize page_data in
          let continuation_token := next_token h in
          if negb (token_truthy continuation_token)
          then Fetched all_data requested
          else fetch_loop requests_get current_url fuel' (S n)
                 continuation_token all_data requested
      end
  end.

(** [extract_azure_devops_api_data(url)], up to the point where [all_data] is
    written out. *)
Definition extract_azure_devops_api_data (requests_get : nat -> response)
    (url : string) (fuel : nat) : fetch_result :=
  fetch_loop requests_get url fuel 0 None [] [].

(** A server that answers the successive requests with the given pages, and
    fails once they are used up. *)
Definition serve (pages : list (json * headers)) (n : nat) : response :=
  match nth_error pages n with
  | Some (page_data, h) => Page page_data h
  | None => Failed
  end.

Definition has_token (p : json * headers) : bool := token_truthy (next_token (snd p)).

(** ** The generators *)

(** What a generator returns: the pair [(terraform_resource,
    terraform_import_block)], or [(None, None)]. *)
Definition blocks : Type := option string * option string.

(** A call that returned: the lines it printed to [sys.stderr], and its
    value. *)
Definition generated : Type := list string * blocks.

(** [print(message, file=sys.stderr)] followed by [return None, None]. *)
Definition give_nothing (message : string) : outcome generated :=
  Returned ([message], (None, None)).

Definition give (terraform_resource terraform_import_block : string)
  : outcome generated :=
  Returned ([], (Some terraform_resource, Some terraform_import_block)).

Definition a_acute : string := chr 225.
Definition a_tilde : string := chr 227.
Definition c_cedilla : string := chr 231.
Definition o_acute : string := chr 243.

(** What [json.loads] does with a text: a value, [json.JSONDecodeError], or
    another exception, with its message. *)
Inductive decoded : Type :=
| Decoded (data : json)
| DecodeError
| OtherError (e : string).

(** The [try] block the three generators open with, applied to what
    [json.loads] did: the record to render, or the message printed before
    [(None, None)] is returned. *)
Definition select_record (d : decoded) : json + string :=
  match d with
  | Decoded (JArr (first :: _)) => inl first
  | Decoded (JObj items) => inl (JObj items)
  | Decoded _ =>
      inr (join ["Erro: JSON de entrada inv"; a_acute; "lido ou formato inesperado."])
  | DecodeError =>
      inr (join ["Erro: JSON de entrada inv"; a_acute; "lido. Verifique a sintaxe."])
  | OtherError e =>
      inr (join ["Erro inesperado ao processar JSON: "; e])
  end.

(** The snake-case name of a block, from a field value:
<<
    x = re.sub(r'[^a-z0-9]+', '_', v.lower()).strip('_')
    if not x:
        x = fallback
>> *)
Definition snake_case (v : json) (fallback : string) : outcome string :=
  lowered <- py_lower v ;;
  let x := strip (re_sub lowered) in
  Returned (if str_truthy x then x else fallback).

(** *** terraform_azure_devops_project.py *)

Definition projeto_resource_text
    (resource_name project_name formatted_description project_visibility
       version_control work_item_template : string) : string :=
  join [ nl;
    "resource "; dq; "azuredevops_project"; dq; " "; dq; resource_name; dq; " {"; nl;
    "  name               = "; dq; project_name; dq; nl;
    "  description        = "; formatted_description; nl;
    "  visibility         = "; dq; project_visibility; dq; nl;
    "  version_control    = "; dq; version_control; dq; nl;
    "  work_item_template = "; dq; work_item_template; dq; nl;
    "}"; nl ].

Definition import_text (import_id target resource_name : string) : string :=
  join [ nl;
    "import {"; nl;
    "  id = "; dq; import_id; dq; nl;
    "  to = "; target; "."; resource_name; nl;
    "}"; nl ].

(** The body of [gerar_terraform_projeto_ado] after the [try] block. *)
Definition render_projeto (dados_projeto : json) : outcome generated :=
  project_id <- py_get dados_projeto "id" JNull ;;
  project_name <- py_get dados_projeto "name" JNull ;;
  project_description <- py_get dados_projeto "description" (JStr "") ;;
  project_visibility <- py_get dados_projeto "visibility" (JStr "private") ;;
  capabilities <- py_get dados_projeto "capabilities" (JObj []) ;;
  process_template_data <- py_get capabilities "processTemplate" (JObj []) ;;
  work_item_template <- py_get process_template_data "templateName" (JStr "Agile") ;;
  version_control_data <- py_get capabilities "versioncontrol" (JObj []) ;;
  version_control <- py_get version_control_data "sourceControlType" (JStr "Git") ;;
  if negb (all [project_id; project_name])
  then give_nothing (join ["Erro: ID ou nome do projeto n"; a_tilde;
                           "o encontrados no JSON de entrada."])
  else
    resource_name_snake_case <- snake_case project_name "unnamed_project" ;;
    let formatted_description := json_dumps project_description in
    let terraform_resource :=
      projeto_resource_text resource_name_snake_case (py_str project_name)
        formatted_description (py_str project_visibility)
        (py_str version_control) (py_str work_item_template) in
    let terraform_import_block :=
      if truthy project_id
      then import_text (py_str project_id) "azuredevops_project"
             resource_name_snake_case
      else EmptyString in
    give terraform_resource terraform_import_block.

(** *** terraform_azure_devops_repos.py *)

(** The [initialization] sub-block of the repository template. *)
Definition initialization_block : string :=
  join [
    "  initialization {"; nl;
    "    init_type = "; dq; "Clean"; dq; nl;
    "  }"; nl ].

(** The [lifecycle] sub-block of the repository template. *)
Definition lifecycle_block : string :=
  join [
    "  lifecycle {"; nl;
    "    ignore_changes = ["; nl;
    "      # Ignora mudan"; c_cedilla; "as em initialization para suportar importa";
      c_cedilla; a_tilde; "o de reposit"; o_acute; "rios existentes"; nl;
    "      # Dado que um repo agora existe, seja importado para o estado do terraform ou criado pelo terraform,"; nl;
    "      # n"; a_tilde; "o nos importamos com a configura"; c_cedilla; a_tilde;
      "o de initialization contra o recurso existente"; nl;
    "      initialization,"; nl;
    "    ]"; nl;
    "    prevent_destroy = true"; nl;
    "  }"; nl ].

(** The part of the repository template below the [name] line. *)
Definition repositorio_fixed_text : string :=
  join [ nl;
    "  # Incluindo o bloco initialization com init_type "; dq; "Clean"; dq; nl;
    initialization_block;
    nl;
    "  # Incluindo o bloco lifecycle para gerenciar importa"; c_cedilla; a_tilde;
      "o e prote"; c_cedilla; a_tilde; "o contra destrui"; c_cedilla; a_tilde; "o"; nl;
    lifecycle_block;
    "}"; nl ].

Definition repositorio_resource_text
    (repo_resource_name project_resource_name repo_name : string) : string :=
  (join [ nl;
     "resource "; dq; "azuredevops_git_repository"; dq; " "; dq; repo_resource_name; dq; " {"; nl;
     "  project_id = azuredevops_project."; project_resource_name; ".id"; nl;
     "  name       = "; dq; repo_name; dq; nl ]
   ++ repositorio_fixed_text)%string.

(** The body of [gerar_terraform_repositorio_ado] after the [try] block. *)
Definition render_repositorio (dados_repositorio : json) : outcome generated :=
  repo_id <- py_get dados_repositorio "id" JNull ;;
  repo_name <- py_get dados_repositorio "name" JNull ;;
  project_data <- py_get dados_repositorio "project" (JObj []) ;;
  project_id <- py_get project_data "id" JNull ;;
  project_name <- py_get project_data "name" JNull ;;
  if negb (all [repo_id; repo_name; project_id; project_name])
  then give_nothing
         (join ["Erro: ID/nome do reposit"; o_acute;
                "rio ou ID/nome do projeto n"; a_tilde;
                "o encontrados no JSON de entrada."])
  else
    repo_resource_name_snake_case <- snake_case repo_name "unnamed_repository" ;;
    project_resource_name_snake_case <- snake_case project_name "unnamed_project_ref" ;;
    let terraform_resource :=
      repositorio_resource_text repo_resource_name_snake_case
        project_resource_name_snake_case (py_str repo_name) in
    let terraform_import_block :=
      if truthy repo_id && truthy project_id
      then import_text (py_str project_id ++ "/" ++ py_str repo_id)
             "azuredevops_git_repository" repo_resource_name_snake_case
      else EmptyString in
    give terraform_resource terraform_import_block.

(** *** terraform_azure_devops_variablegroups.py *)

(** What one turn of the [for] loop appends to [variables_block]. *)
Definition variable_entry (var_name : string) (value is_secret : json) : string :=
  join [ "    "; var_name; " = {"; nl;
         "      value     = "; dq; py_str value; dq; nl;
         "      is_secret = "; lower (py_str is_secret); nl;
         "    }"; nl ].

(** The loop [for var_name, var_data in variables.items()]. *)
Fixpoint variables_loop (items : list (string * json)) (variables_block : string)
  : outcome string :=
  match items with
  | [] => Returned variables_block
  | (var_name, var_data) :: rest =>
      value <- py_get var_data "value" (JStr "") ;;
      is_secret <- py_get var_data "isSecret" (JBool false) ;;
      variables_loop rest
        (variables_block ++ variable_entry var_name value is_secret)
  end.

Definition variablegroup_resource_text
    (vg_resource_name project_resource_name vg_name variables_block : string)
  : string :=
  join [ nl;
    "resource "; dq; "azuredevops_variable_group"; dq; " "; dq; vg_resource_name; dq; " {"; nl;
    "  project_id = azuredevops_project."; project_resource_name; ".id"; nl;
    "  name       = "; dq; vg_name; dq; nl;
    nl;
    "  variable {"; nl;
    variables_block; "  }"; nl;
    "}"; nl ].

(** The body of [gerar_terraform_variablegroup_ado] after the [try] block. *)
Definition render_variablegroup (dados_vg : json) : outcome generated :=
  vg_id <- py_get dados_vg "id" JNull ;;
  vg_name <- py_get dados_vg "name" JNull ;;
  project_reference <- py_get dados_vg "projectReference" (JObj []) ;;
  project_id <- py_get project_reference "id" JNull ;;
  project_reference' <- py_get dados_vg "projectReference" (JObj []) ;;
  project_name <- py_get project_reference' "name" JNull ;;
  variables <- py_get dados_vg "variables" (JObj []) ;;
  if negb (all [vg_id; vg_name; project_id; project_name])
  then give_nothing
         (join ["Erro: ID/nome do variable group ou ID/nome do projeto n";
                a_tilde; "o encontrados no JSON de entrada."])
  else
    vg_resource_name_snake_case <- snake_case vg_name "unnamed_variablegroup" ;;
    project_resource_name_snake_case <- snake_case project_name "unnamed_project_ref" ;;
    items <- py_items variables ;;
    variables_block <- variables_loop items EmptyString ;;
    let terraform_resource :=
      variablegroup_resource_text vg_resource_name_snake_case
        project_resource_name_snake_case (py_str vg_name) variables_block in
    let terraform_import_block :=
      if truthy vg_id && truthy project_id
      then import_text (py_str project_id ++ "/" ++ py_str vg_id)
             "azuredevops_variable_group" vg_resource_name_snake_case
      else EmptyString in
    give terraform_resource terraform_import_block.

(** *** The functions as called, over a decoder *)

Section Generators.

(** [json.loads] *)
Variable json_loads : string -> decoded.

Definition generate (render : json -> outcome generated) (text : string)
  : outcome generated :=
  match select_record (json_loads text) with
  | inl dados => render dados
  | inr message => give_nothing message
  end.

Definition gerar_terraform_projeto_ado (json_projeto_str : string) :=
  generate render_projeto json_projeto_str.

Definition gerar_terraform_repositorio_ado (json_repositorio_str : string) :=
  generate render_repositorio json_repositorio_str.

Definition gerar_terraform_variablegroup_ado (json_variablegroup_str : string) :=
  generate render_variablegroup json_variablegroup_str.

End Generators.

(** ** Vocabulary of the statements *)

(** The resource kinds and their renderers. *)
Inductive ResourceKind : Type := Project | Repository | VariableGroup.

Definition render (kind : ResourceKind) (entity : json) : outcome generated :=
  match kind with
  | Project => render_projeto entity
  | Repository => render_repositorio entity
  | VariableGroup => render_variablegroup entity
  end.

(** The field found by following [path] through nested objects. *)
Fixpoint lookup_path (v : json) (path : list string) : option json :=
  match path with
  | [] => Some v
  | key :: rest =>
      match v with
      | JObj items =>
          match dict_get items key with
          | Some x => lookup_path x rest
          | None => None
          end
      | _ => None
      end
  end.

(** The required fields of each kind. *)
Definition required_fields (kind : ResourceKind) : list (list string) :=
  match kind with
  | Project => [ ["id"]; ["name"] ]
  | Repository => [ ["id"]; ["name"]; ["project"; "id"]; ["project"; "name"] ]
  | VariableGroup =>
      [ ["id"]; ["name"]; ["projectReference"; "id"]; ["projectReference"; "name"] ]
  end.

(** A field is there when it is present and truthy. *)
Definition field_present (entity : json) (path : list string) : bool :=
  match lookup_path entity path with
  | Some v => truthy v
  | None => false
  end.

Definition required_ok (kind : ResourceKind) (entity : json) : bool :=
  forallb (field_present entity) (required_fields kind).

Definition object_or_absent (items : list (string * json)) (key : string) : bool :=
  match dict_get items key with
  | None => true
  | Some (JObj _) => true
  | Some _ => false
  end.

(** The entity is an object, and the records nested in it that the renderer
    opens before it checks the required fields are objects when present. *)
Definition containers_ok (kind : ResourceKind) (entity : json) : bool :=
  match entity with
  | JObj items =>
      match kind with
      | Project =>
          match dict_get items "capabilities" with
          | None => true
          | Some (JObj capabilities) =>
              object_or_absent capabilities "processTemplate"
              && object_or_absent capabilities "versioncontrol"
          | Some _ => false
          end
      | Repository => object_or_absent items "project"
      | VariableGroup => object_or_absent items "projectReference"
      end
  | _ => false
  end.

(** The fields a name is taken from. *)
Definition name_fields (kind : ResourceKind) : list (list string) :=
  match kind with
  | Project => [ ["name"] ]
  | Repository => [ ["name"]; ["project"; "name"] ]
  | VariableGroup => [ ["name"]; ["projectReference"; "name"] ]
  end.

Definition string_at (entity : json) (path : list string) : bool :=
  match lookup_path entity path with
  | Some (JStr _) => true
  | _ => false
  end.

(** The [variables] of a variable group, when present, are an object whose
    values are objects. *)
Definition variables_ok (entity : json) : bool :=
  match lookup_path entity ["variables"] with
  | None => true
  | Some (JObj vars) => forallb (fun kv => isinstance_dict (snd kv)) vars
  | Some _ => false
  end.

(** The names are strings, and for a variable group the variables are
    well-formed. *)
Definition texts_ok (kind : ResourceKind) (entity : json) : bool :=
  forallb (string_at entity) (name_fields kind)
  && match kind with
     | VariableGroup => variables_ok entity
     | _ => true
     end.



(** The URLs a fetch requests when the pages [pre] all hand on a token. *)
Definition request_urls (url : string) (pre : list (json * headers)) : list string :=
  url :: map (fun p => request_url url (next_token (snd p))) pre.





Definition entry_item (entry : string * list (string * json)) : string * json :=
  (fst entry, JObj (snd entry)).

(** A decoder that knows one text. *)
Definition decode_only (text : string) (data : json) (s : string) : decoded :=
  if String.eqb s text then Decoded data else DecodeError.

(** *** Auxiliary notions of the proofs *)


Fixpoint all_chars (p : ascii -> bool) (s : string) : bool :=
  match s with
  | EmptyString => true
  | String c r => p c && all_chars p r
  end.

(** A run is not empty and its characters are of the sort it announces. *)
Definition run_ok (r : bool * string) : bool :=
  str_truthy (snd r) && all_chars (fun c => Bool.eqb (negb (alnum c)) (fst r)) (snd r).

(** Neighbouring runs are of different sorts. *)
Fixpoint alternating (l : list (bool * string)) : bool :=
  match l with
  | a :: ((b :: _) as rest) => negb (Bool.eqb (fst a) (fst b)) && alternating rest
  | _ => true
  end.

(** [tidy prev s]: every character of [s] is in [a-z0-9] or an underscore,
    no two underscores are neighbours, and [s] does not open with an
    underscore when [prev] says one comes just before it. *)
Fixpoint tidy (prev : bool) (s : string) : bool :=
  match s with
  | EmptyString => true
  | String c r =>
      if alnum c then tidy false r
      else is_us c && negb prev && tidy true r
  end.

Definition opens_with_us (s : string) : bool :=
  match s with
  | String c _ => is_us c
  | EmptyString => false
  end.

(** The variable entries as the loop writes them, whatever the flag holds. *)
Definition raw_entry (entry : string * list (string * json)) : string :=
  variable_entry (fst entry)
    (get_default (snd entry) "value" (JStr ""))
    (get_default (snd entry) "isSecret" (JBool false)).

Fixpoint is_prefix (part text : string) : bool :=
  match part, text with
  | EmptyString, _ => true
  | String a p, String b t => Ascii.eqb a b && is_prefix p t
  | String _ _, EmptyString => false
  end.




(** *** Entities and pages of the examples *)

Definition projeto_my_proj : json :=
  JObj [("id", JStr "1"); ("name", JStr "My Proj!"); ("visibility", JStr "private")].






Definition page_ab : json * headers :=
  (JObj [("value", JArr [JStr "A"; JStr "B"])], [("x-ms-continuationtoken", "tok1")]).

Definition page_c : json * headers :=
  (JObj [("value", JArr [JStr "C"])], []).

Definition four_pages : list (json * headers) :=
  [ page_ab; (JArr [JStr "C"], [("ContinuationToken", "tok2")]);
    (JStr "D", []); (JStr "E", []) ].

(** ** Further notions *)

(** *** Identifiers *)

Fixpoint closes_with_us (s : string) : bool :=
  match s with
  | EmptyString => false
  | String c r =>
      match r with
      | EmptyString => is_us c
      | String _ _ => closes_with_us r
      end
  end.

Fixpoint has_double_us (s : string) : bool :=
  match s with
  | EmptyString => false
  | String a r =>
      match r with
      | EmptyString => false
      | String b _ => (is_us a && is_us b) || has_double_us r
      end
  end.

(** A block label: not empty, made of [a-z0-9] and underscores, with no
    underscore at either end and no two underscores in a row. *)
Definition identifier (s : string) : bool :=
  str_truthy s
  && all_chars (fun c => alnum c || is_us c) s
  && negb (opens_with_us s)
  && negb (closes_with_us s)
  && negb (has_double_us s).



(** *** Fetches over any server *)

(** A server that answers the successive requests with the given pages and
    every later request with [after]. *)
Definition serve_then (pages : list (json * headers)) (after : response)
    (n : nat) : response :=
  match nth_error pages n with
  | Some (page_data, h) => Page page_data h
  | None => after
  end.

(** The exception a response makes the loop re-raise, if any. *)
Definition exception_of (r : response) : option exn :=
  match r with
  | Failed => Some RequestException
  | Undecodable _ => Some JSONDecodeError
  | Page _ _ => None
  end.




(** *** Blocks *)

(** The resource type each generator writes. *)
Definition terraform_type (kind : ResourceKind) : string :=
  match kind with
  | Project => "azuredevops_project"
  | Repository => "azuredevops_git_repository"
  | VariableGroup => "azuredevops_variable_group"
  end.

(** The opening line of a resource block, with its type and its label. *)
Definition resource_header (type label : string) : string :=
  join [ nl; "resource "; dq; type; dq; " "; dq; label; dq; " {"; nl ].

(** The message each generator prints when a required field is missing. *)
Definition missing_fields_message (kind : ResourceKind) : string :=
  match kind with
  | Project =>
      join ["Erro: ID ou nome do projeto n"; a_tilde;
            "o encontrados no JSON de entrada."]
  | Repository =>
      join ["Erro: ID/nome do reposit"; o_acute;
            "rio ou ID/nome do projeto n"; a_tilde;
            "o encontrados no JSON de entrada."]
  | VariableGroup =>
      join ["Erro: ID/nome do variable group ou ID/nome do projeto n";
            a_tilde; "o encontrados no JSON de entrada."]
  end.


(** *** The scripts as run *)

(** What opening a file for reading and reading it gives. *)
Inductive read_result : Type :=
| ReadOk (text : string)
| FileNotFound
| ReadError (e : string).

(** The surroundings of a run: what [open(path, "r")] gives, the text of the
    exception [open(path, "w")] raises if it raises, and the data piped to
    standard input, [None] when it is a terminal. *)
Record machine : Type := {
  open_read : string -> read_result;
  open_write : string -> option string;
  stdin : option string
}.

(** How a run ends: off the end of the script, by [sys.exit(code)], or by an
    exception nobody caught, for which the interpreter prints a traceback and
    gives the status 1. *)
Inductive ending : Type :=
| Ended
| Exited (code : nat)
| Uncaught (e : exn).


(** What a run leaves behind: the lines the script printed to either
    stream, and the files written (path and text), in order. *)
Record run : Type := {
  stdout : list string;
  stderr : list string;
  writes : list (string * string);
  how : ending
}.

(** The text a path holds after the writes: each write replaces the file. *)
Fixpoint file_after (ws : list (string * string)) (path : string) : option string :=
  match ws with
  | [] => None
  | (p, text) :: rest =>
      match file_after rest path with
      | Some later => Some later
      | None => if String.eqb p path then Some text else None
      end
  end.

(** The command-line arguments of a generator, as [argparse] leaves them. *)
Record generator_args : Type := {
  arg_json : option string;
  arg_terraform : option string;
  arg_import : option string
}.

(** Truth value of an argument, or of a block: [None] and the empty string
    are falsy. *)
Definition option_truthy (a : option string) : bool :=
  match a with
  | Some s => str_truthy s
  | None => false
  end.

(** The first part of a generator's [__main__]: the input text, or the
    message printed before [sys.exit(1)]. *)
Definition read_input (m : machine) (a : generator_args) : string + string :=
  if option_truthy (arg_json a) then
    let path := match arg_json a with Some p => p | None => EmptyString end in
    match open_read m path with
    | ReadOk text => inl text
    | FileNotFound =>
        inr (join ["Erro: Arquivo JSON '"; path; "' n"; a_tilde; "o encontrado."])
    | ReadError e =>
        inr (join ["Erro ao ler arquivo JSON '"; path; "': "; e])
    end
  else
    match stdin m with
    | Some text => inl text
    | None => inr "Erro: Nenhuma entrada JSON fornecida via --json ou stdin."
    end.

(** One of the two output steps of a generator's [__main__], run after [r]:
    the block goes to the file named, or to standard output under a
    heading. *)
Definition write_block (m : machine) (target : option string) (block : string)
    (saved failed heading : string) (r : run) : run :=
  if option_truthy target then
    let path := match target with Some p => p | None => EmptyString end in
    match open_write m path with
    | None =>
        {| stdout := stdout r ++ [join [saved; path; "'"]];
           stderr := stderr r;
           writes := writes r ++ [(path, block)];
           how := how r |}
    | Some e =>
        {| stdout := stdout r;
           stderr := stderr r ++ [join [failed; path; "': "; e]];
           writes := writes r;
           how := Exited 1 |}
    end
  else
    {| stdout := stdout r ++ [heading; block];
       stderr := stderr r;
       writes := writes r;
       how := how r |}.

(** The [__main__] block of a generator that calls [gerar]. *)
Definition generator_main (gerar : string -> outcome generated) (m : machine)
    (a : generator_args) : run :=
  match read_input m a with
  | inr message =>
      {| stdout := []; stderr := [message]; writes := []; how := Exited 1 |}
  | inl json_input_str =>
      match gerar json_input_str with
      | Raised e =>
          {| stdout := []; stderr := []; writes := []; how := Uncaught e |}
      | Returned (printed, (resource_block, import_block)) =>
          let r0 := {| stdout := []; stderr := printed; writes := [];
                       how := Ended |} in
          if negb (option_truthy resource_block)
             && negb (option_truthy import_block)
          then {| stdout := []; stderr := printed; writes := [];
                  how := Exited 1 |}
          else
            let r1 :=
              if option_truthy resource_block
              then write_block m (arg_terraform a)
                     (match resource_block with Some b => b | None => EmptyString end)
                     "Bloco Terraform de recurso salvo em '"
                     "Erro ao escrever no arquivo Terraform '"
                     "--- Bloco Terraform para o Recurso ---" r0
              else r0 in
            match how r1 with
            | Ended =>
                if option_truthy import_block
                then write_block m (arg_import a)
                       (match import_block with Some b => b | None => EmptyString end)
                       (join ["Bloco Terraform de importa"; c_cedilla; a_tilde;
                              "o salvo em '"])
                       (join ["Erro ao escrever no arquivo de importa";
                              c_cedilla; a_tilde; "o '"])
                       (nl ++ "--- Bloco Terraform para Import ---") r1
                else r1
            | _ => r1
            end
      end
  end.

(** The three scripts. *)
Definition script (kind : ResourceKind) (json_loads : string -> decoded)
    (m : machine) (a : generator_args) : run :=
  generator_main
    (match kind with
     | Project => gerar_terraform_projeto_ado json_loads
     | Repository => gerar_terraform_repositorio_ado json_loads
     | VariableGroup => gerar_terraform_variablegroup_ado json_loads
     end) m a.


(** The function a script calls. *)
Definition gerar (kind : ResourceKind) (json_loads : string -> decoded)
    (text : string) : outcome generated :=
  generate json_loads (render kind) text.

(** The two output steps of a generator script. *)
Definition resource_step (m : machine) (a : generator_args) (block : string)
    (r : run) : run :=
  write_block m (arg_terraform a) block
    "Bloco Terraform de recurso salvo em '"
    "Erro ao escrever no arquivo Terraform '"
    "--- Bloco Terraform para o Recurso ---" r.

Definition import_step (m : machine) (a : generator_args) (block : string)
    (r : run) : run :=
  write_block m (arg_import a) block
    (join ["Bloco Terraform de importa"; c_cedilla; a_tilde; "o salvo em '"])
    (join ["Erro ao escrever no arquivo de importa"; c_cedilla; a_tilde; "o '"])
    (nl ++ "--- Bloco Terraform para Import ---") r.

(** A run that has done nothing yet. *)
Definition fresh : run :=
  {| stdout := []; stderr := []; writes := []; how := Ended |}.

(** A machine for the examples: one input file, one directory that cannot
    be written to, nothing piped in. *)
Definition example_machine : machine :=
  {| open_read := fun path =>
       if String.eqb path "project.json" then ReadOk "{...}" else FileNotFound;
     open_write := fun path =>
       if is_prefix "/readonly/" path then Some "Permission denied" else None;
     stdin := None |}.

Definition example_args (terraform import : string) : generator_args :=
  {| arg_json := Some "project.json";
     arg_terraform := Some terraform;
     arg_import := Some import |}.

(** *** extract_azure_devops_api_data.py as run *)

(** One character under [json.dumps] with [ensure_ascii=False]: only the
    double quote, the backslash and the controls below U+0020 are
    escaped. *)
Definition json_escape_char_raw (c : ascii) : string :=
  let n := code c in
  if Nat.eqb n 34 then String backslash dq
  else if Nat.eqb n 92 then String backslash (String backslash EmptyString)
  else if Nat.eqb n 10 then String backslash "n"
  else if Nat.eqb n 13 then String backslash "r"
  else if Nat.eqb n 9 then String backslash "t"
  else if Nat.eqb n 8 then String backslash "b"
  else if Nat.eqb n 12 then String backslash "f"
  else if Nat.ltb n 32 then (String backslash "u00" ++ hex2 n)%string
  else String c EmptyString.

Definition json_dumps_str_raw (s : string) : string :=
  (dq ++ map_join json_escape_char_raw s ++ dq)%string.

Fixpoint spaces (n : nat) : string :=
  match n with
  | O => EmptyString
  | S k => String " "%char (spaces k)
  end.

(** A line break followed by the indentation of nesting level [level]. *)
Definition newline_indent (level : nat) : string :=
  (nl ++ spaces (4 * level))%string.

(** [json.dumps(v, indent=4, ensure_ascii=False)], for a value nested
    [level] deep. *)
Fixpoint json_dumps_indent (level : nat) (v : json) : string :=
  match v with
  | JNull => "null"
  | JBool true => "true"
  | JBool false => "false"
  | JInt n => string_of_Z n
  | JFloat x => float_json x
  | JStr s => json_dumps_str_raw s
  | JArr [] => "[]"
  | JArr l =>
      ("[" ++ newline_indent (S level)
         ++ sep_join ("," ++ newline_indent (S level))
              (map (json_dumps_indent (S level)) l)
         ++ newline_indent level ++ "]")%string
  | JObj [] => "{}"
  | JObj l =>
      ("{" ++ newline_indent (S level)
         ++ sep_join ("," ++ newline_indent (S level))
              (map (fun kv =>
                      match kv with
                      | (k, x) =>
                          (json_dumps_str_raw k ++ ": "
                             ++ json_dumps_indent (S level) x)%string
                      end) l)
         ++ newline_indent level ++ "}")%string
  end.

(** An exception of a library, as the handlers see it: its text, and the
    classes among those the handlers name that it is an instance of. *)
Record library_error : Type := {
  error_text : string;
  is_request_exception : bool;
  is_json_decode_error : bool;
  is_value_error : bool
}.

(** The surroundings of an extraction: the value of [AZURE_DEVOPS_EXT_PAT],
    the responses of the server, the exception behind the response to
    request [n] when that one fails, the text of the error that encoding a
    string to ASCII raises, and the machine. *)
Record extractor_world : Type := {
  world_pat : option string;
  world_get : nat -> response;
  world_raised : nat -> library_error;
  world_ascii_error : string -> string;
  world_machine : machine
}.

Definition is_ascii (c : ascii) : bool := Nat.ltb (code c) 128.

(** What the function can raise. *)
Inductive script_error : Type :=
| ValueError (text : string)
| LibraryError (e : library_error)
| IOError (text : string).

(** The text of the [ValueError] for a missing token. *)
Definition missing_pat_text : string :=
  join ["A vari"; a_acute; "vel de ambiente 'AZURE_DEVOPS_EXT_PAT' n"; a_tilde;
        "o est"; a_acute; " definida. Por favor, configure-a."].

(** The line the handlers inside the loop print before they re-raise. *)
Definition loop_report (e : library_error) (request_url : string) : string :=
  if is_request_exception e then
    join ["Erro na requisi"; c_cedilla; a_tilde; "o para "; request_url; ": ";
          error_text e]
  else if is_json_decode_error e then
    join ["Erro ao decodificar JSON da resposta da URL: "; request_url]
  else
    join ["Ocorreu um erro inesperado: "; error_text e].

(** A call of the function: what it printed and wrote, the URLs it
    requested, and the exception it raised, if any. *)
Record extraction : Type := {
  x_run : run;
  x_requested : list string;
  x_raised : option script_error
}.

(** [extract_azure_devops_api_data(url, output_filename)], whole; [None]
    when [fuel] iterations do not end the loop. *)
Definition extract_script (w : extractor_world) (url : string)
    (output_filename : option string) (fuel : nat) : option extraction :=
  if negb (option_truthy (world_pat w)) then
    Some {| x_run := fresh; x_requested := [];
            x_raised := Some (ValueError missing_pat_text) |}
  else
    let azure_devops_ext_pat :=
      match world_pat w with Some p => p | None => EmptyString end in
    if negb (all_chars is_ascii (":" ++ azure_devops_ext_pat)) then
      Some {| x_run := fresh; x_requested := [];
              x_raised :=
                Some (ValueError
                        (world_ascii_error w (":" ++ azure_devops_ext_pat))) |}
    else
      match extract_azure_devops_api_data (world_get w) url fuel with
      | StillFetching => None
      | Aborted _ request_url requested =>
          let e := world_raised w (List.length requested - 1) in
          Some {| x_run := {| stdout := [];
                              stderr := [loop_report e request_url];
                              writes := [];
                              how := Ended |};
                  x_requested := requested;
                  x_raised := Some (LibraryError e) |}
      | Fetched all_data requested =>
          if option_truthy output_filename then
            let path :=
              match output_filename with Some p => p | None => EmptyString end in
            match open_write (world_machine w) path with
            | None =>
                Some {| x_run :=
                          {| stdout := [join ["Dados salvos com sucesso em '";
                                              path; "'"]];
                             stderr := [];
                             writes := [(path, json_dumps_indent 0 (JArr all_data))];
                             how := Ended |};
                        x_requested := requested;
                        x_raised := None |}
            | Some e =>
                Some {| x_run :=
                          {| stdout := [];
                             stderr := [join ["Erro ao salvar os dados no arquivo '";
                                              path; "': "; e]];
                             writes := [];
                             how := Ended |};
                        x_requested := requested;
                        x_raised := Some (IOError e) |}
            end
          else
            Some {| x_run := {| stdout := [json_dumps_indent 0 (JArr all_data)];
                                stderr := [];
                                writes := [];
                                how := Ended |};
                    x_requested := requested;
                    x_raised := None |}
      end.

(** The line the [__main__] block prints for an exception: the handlers are
    tried in the order [ValueError], [RequestException], [Exception]. *)
Definition main_report (err : script_error) : string :=
  match err with
  | ValueError text =>
      join ["Erro de configura"; c_cedilla; a_tilde; "o: "; text]
  | LibraryError e =>
      if is_value_error e then
        join ["Erro de configura"; c_cedilla; a_tilde; "o: "; error_text e]
      else if is_request_exception e then
        join ["Erro na requisi"; c_cedilla; a_tilde; "o HTTP: "; error_text e]
      else
        join ["Um erro inesperado ocorreu: "; error_text e]
  | IOError text =>
      join ["Um erro inesperado ocorreu: "; text]
  end.

(** The [__main__] block of the extractor: the run, and the URLs
    requested. *)
Definition extractor_main (w : extractor_world) (url : string)
    (output_filename : option string) (fuel : nat)
  : option (run * list string) :=
  match extract_script w url output_filename fuel with
  | None => None
  | Some x =>
      Some (match x_raised x with
            | None => x_run x
            | Some err =>
                {| stdout := stdout (x_run x);
                   stderr := stderr (x_run x) ++ [main_report err];
                   writes := writes (x_run x);
                   how := Ended |}
            end,
            x_requested x)
  end.

(** A world for the examples. *)
Definition example_world (pat : option string) (get : nat -> response)
  : extractor_world :=
  {| world_pat := pat;
     world_get := get;
     world_raised := fun _ =>
       {| error_text := "503 Server Error"; is_request_exception := true;
          is_json_decode_error := false; is_value_error := false |};
     world_ascii_error := fun _ => "'ascii' codec can't encode character";
     world_machine := example_machine |}.

(** *** The request headers *)

Definition b64_alphabet : string :=
  "ABCDEFGHIJKLMNOPQRSTUVWXYZabcdefghijklmnopqrstuvwxyz0123456789+/".

(** The symbol of a 6-bit value. *)
Definition b64_symbol (n : nat) : ascii :=
  match String.get n b64_alphabet with
  | Some c => c
  | None => "="%char
  end.

(** [base64.b64encode], on a string whose characters stand for bytes: three
    bytes give four symbols, and a last group of one or two bytes is padded
    with [=]. *)
Fixpoint b64encode (s : string) : string :=
  match s with
  | EmptyString => EmptyString
  | String a EmptyString =>
      String (b64_symbol (code a / 4))
        (String (b64_symbol (code a mod 4 * 16)) "==")
  | String a (String b EmptyString) =>
      String (b64_symbol (code a / 4))
        (String (b64_symbol (code a mod 4 * 16 + code b / 16))
           (String (b64_symbol (code b mod 16 * 4)) "="))
  | String a (String b (String c rest)) =>
      String (b64_symbol (code a / 4))
        (String (b64_symbol (code a mod 4 * 16 + code b / 16))
           (String (b64_symbol (code b mod 16 * 4 + code c / 64))
              (String (b64_symbol (code c mod 64)) (b64encode rest))))
  end.

(** The headers of every request:
<<
    pat_encoded = base64.b64encode(f":{azure_devops_ext_pat}".encode('ascii')).decode('ascii')
    headers = {"Authorization": f"Basic {pat_encoded}", "Accept": ...}
>> *)
Definition request_headers (azure_devops_ext_pat : string) : headers :=
  [ ("Authorization", "Basic " ++ b64encode (":" ++ azure_devops_ext_pat));
    ("Accept", "application/json; api-version=7.1-preview.1") ]%string.

(** The 6-bit value of a symbol. *)
Fixpoint index_from (c : ascii) (alphabet : string) (n : nat) : option nat :=
  match alphabet with
  | EmptyString => None
  | String d rest => if Ascii.eqb c d then Some n else index_from c rest (S n)
  end.

Definition b64_value (c : ascii) : option nat := index_from c b64_alphabet 0.

(** What a server makes of base64 text: the bytes back, four symbols at a
    time; [fuel] bounds the number of groups. *)
Fixpoint b64decode (fuel : nat) (s : string) : option string :=
  match fuel with
  | O => match s with EmptyString => Some EmptyString | _ => None end
  | S fuel' =>
      match s with
      | EmptyString => Some EmptyString
      | String c1 (String c2 (String c3 (String c4 rest))) =>
          match b64_value c1, b64_value c2 with
          | Some v1, Some v2 =>
              let a := ascii_of_nat (v1 * 4 + v2 / 16) in
              if Ascii.eqb c3 "="%char then
                if Ascii.eqb c4 "="%char
                then match rest with
                     | EmptyString => Some (String a EmptyString)
                     | _ => None
                     end
                else None
              else
                match b64_value c3 with
                | Some v3 =>
                    let b := ascii_of_nat (v2 mod 16 * 16 + v3 / 4) in
                    if Ascii.eqb c4 "="%char
                    then match rest with
                         | EmptyString => Some (String a (String b EmptyString))
                         | _ => None
                         end
                    else
                      match b64_value c4, b64decode fuel' rest with
                      | Some v4, Some tail =>
                          Some (String a
                                  (String b
                                     (String (ascii_of_nat (v3 mod 4 * 64 + v4))
                                        tail)))
                      | _, _ => None
                      end
                | None => None
                end
          | _, _ => None
          end
      | _ => None
      end
  end.

(** * Properties *)

(** ** The sanitizer *)

Lemma lower_char_kept (c : ascii) :
  alnum c || is_us c = true -> lower_char c = c.
Proof.
  destruct c as [[] [] [] [] [] [] [] []]; vm_compute; intros H;
    first [reflexivity | discriminate H].
Qed.

Lemma alnum_not_us (c : ascii) : alnum c = true -> is_us c = false.
Proof.
  destruct c as [[] [] [] [] [] [] [] []]; vm_compute; intros H;
    first [reflexivity | discriminate H].
Qed.

Lemma is_us_eq (c : ascii) : is_us c = true -> c = "_"%char.
Proof. unfold is_us. apply Ascii.eqb_eq. Qed.

(** *** The scan agrees with the decomposition into maximal runs *)





(** The runs are a decomposition of the string into non-empty pieces, each of
    one sort, and two neighbours are of different sorts: they are maximal. *)

Lemma maximal_runs_join (s : string) : join (map snd (maximal_runs s)) = s.
Proof.
  induction s as [|c r IH]; [reflexivity|].
  simpl. destruct (maximal_runs r) as [|[b run] rest]; simpl in *.
  - now rewrite <- IH.
  - destruct (Bool.eqb (negb (alnum c)) b); simpl; now rewrite <- IH.
Qed.

Lemma maximal_runs_ok (s : string) :
  forallb run_ok (maximal_runs s) = true /\ alternating (maximal_runs s) = true.
Proof.
  induction s as [|c r [IHa IHb]]; [split; reflexivity|].
  simpl. destruct (maximal_runs r) as [|[b run] rest].
  - unfold run_ok; simpl. rewrite Bool.eqb_reflx. split; reflexivity.
  - simpl in IHa. apply andb_true_iff in IHa as [Hrun Hrest].
    destruct (Bool.eqb (negb (alnum c)) b) eqn:E.
    + apply Bool.eqb_prop in E. subst b. split.
      * simpl. rewrite Hrest, andb_true_r.
        unfold run_ok in *; simpl in *. rewrite Bool.eqb_reflx.
        apply andb_true_iff in Hrun as [_ Hrun]. exact Hrun.
      * simpl in *. exact IHb.
    + split.
      * simpl. rewrite Hrun, Hrest.
        unfold run_ok; simpl. rewrite Bool.eqb_reflx. reflexivity.
      * change (negb (Bool.eqb (negb (alnum c)) b) && alternating ((b, run) :: rest) = true).
        rewrite E, IHb. reflexivity.
Qed.

(** *** Shape of the result, and idempotence *)

Lemma re_sub_scan_tidy (s : string) (b : bool) : tidy b (re_sub_scan b s) = true.
Proof.
  revert b. induction s as [|c r IH]; intros b; [reflexivity|].
  simpl. destruct (alnum c) eqn:E.
  - simpl. rewrite E. apply IH.
  - destruct b; [apply IH|].
    simpl. rewrite IH. reflexivity.
Qed.

Lemma tidy_weaken (s : string) (b : bool) : tidy b s = true -> tidy false s = true.
Proof.
  destruct s as [|c r]; [reflexivity|]. simpl.
  destruct (alnum c); [trivial|].
  destruct b; [|trivial].
  rewrite andb_false_r. discriminate.
Qed.

Lemma tidy_lower (s : string) (b : bool) : tidy b s = true -> lower s = s.
Proof.
  revert b. induction s as [|c r IH]; intros b H; [reflexivity|].
  simpl in *. destruct (alnum c) eqn:E.
  - rewrite lower_char_kept by (rewrite E; reflexivity).
    now rewrite (IH false).
  - apply andb_true_iff in H as [H Hr]. apply andb_true_iff in H as [Hus _].
    rewrite lower_char_kept by (rewrite Hus; apply orb_true_r).
    now rewrite (IH true).
Qed.

Lemma tidy_re_sub_scan (s : string) (b : bool) :
  tidy b s = true -> re_sub_scan b s = s.
Proof.
  revert b. induction s as [|c r IH]; intros b H; [reflexivity|].
  simpl in *. destruct (alnum c) eqn:E.
  - now rewrite (IH false).
  - apply andb_true_iff in H as [H Hr]. apply andb_true_iff in H as [Hus Hb].
    destruct b; [discriminate Hb|].
    rewrite (IH true Hr). now rewrite (is_us_eq c Hus).
Qed.

Lemma lstrip_tidy (s : string) (b : bool) :
  tidy b s = true -> tidy false (lstrip s) = true.
Proof.
  revert b. induction s as [|c r IH]; intros b H; [reflexivity|].
  simpl. destruct (is_us c) eqn:Hus.
  - simpl in H. destruct (alnum c) eqn:E.
    + apply alnum_not_us in E. congruence.
    + apply andb_true_iff in H as [_ Hr]. exact (IH true Hr).
  - exact (tidy_weaken _ _ H).
Qed.

Lemma rstrip_tidy (s : string) (b : bool) :
  tidy b s = true -> tidy b (rstrip s) = true.
Proof.
  revert b. induction s as [|c r IH]; intros b H; [reflexivity|].
  simpl in *. destruct (alnum c) eqn:E.
  - specialize (IH false H). destruct (rstrip r) as [|d r'].
    + rewrite (alnum_not_us c E). simpl. now rewrite E.
    + simpl. now rewrite E.
  - apply andb_true_iff in H as [H Hr]. specialize (IH true Hr).
    destruct (rstrip r) as [|d r'].
    + apply andb_true_iff in H as [Hus _]. now rewrite Hus.
    + simpl tidy at 1. rewrite E, H. exact IH.
Qed.

Lemma lstrip_opens (s : string) : opens_with_us (lstrip s) = false.
Proof.
  induction s as [|c r IH]; [reflexivity|].
  simpl. destruct (is_us c) eqn:E; [exact IH|]. simpl. exact E.
Qed.

Lemma lstrip_fixed (s : string) : opens_with_us s = false -> lstrip s = s.
Proof.
  destruct s as [|c r]; [reflexivity|]. simpl. now intros ->.
Qed.

Lemma rstrip_opens (s : string) :
  opens_with_us s = false -> opens_with_us (rstrip s) = false.
Proof.
  destruct s as [|c r]; [reflexivity|]. simpl. intros H.
  destruct (rstrip r); [rewrite H|]; simpl; trivial.
Qed.

Lemma rstrip_rstrip (s : string) : rstrip (rstrip s) = rstrip s.
Proof.
  induction s as [|c r IH]; [reflexivity|].
  simpl. destruct (rstrip r) as [|d r'] eqn:E.
  - destruct (is_us c) eqn:Hus; [reflexivity|]. simpl. now rewrite Hus.
  - simpl. simpl in IH. rewrite IH. reflexivity.
Qed.

Lemma strip_strip (s : string) : strip (strip s) = strip s.
Proof.
  unfold strip.
  rewrite (lstrip_fixed (rstrip (lstrip s)))
    by (apply rstrip_opens, lstrip_opens).
  apply rstrip_rstrip.
Qed.

Lemma strip_tidy (s : string) (b : bool) :
  tidy b s = true -> tidy false (strip s) = true.
Proof.
  intros H. unfold strip. apply rstrip_tidy. exact (lstrip_tidy s b H).
Qed.

(** The cleaned name is a fixed point of the three steps. *)
Lemma clean_fixed (s : string) :
  let x := strip (re_sub (lower s)) in strip (re_sub (lower x)) = x.
Proof.
  intros x.
  assert (Hx : tidy false x = true).
  { unfold x. apply (strip_tidy _ false). apply re_sub_scan_tidy. }
  rewrite (tidy_lower x false Hx).
  unfold re_sub. rewrite (tidy_re_sub_scan x false Hx).
  unfold x. apply strip_strip.
Qed.

(** Sanitizing twice is sanitizing once, for a fallback that the sanitizer
    leaves alone. *)
Lemma sanitize_twice_fixed (s f : string) :
  sanitize f f = f -> sanitize (sanitize s f) f = sanitize s f.
Proof.
  intros Hf. unfold sanitize at 2 3.
  destruct (str_truthy (strip (re_sub (lower s)))) eqn:E; [|exact Hf].
  unfold sanitize. rewrite (clean_fixed s). cbv zeta. now rewrite E.
Qed.

(** A fallback that the sanitizer changes is the one thing that breaks it. *)
Lemma sanitize_twice_iff (f : string) :
  (forall s, sanitize (sanitize s f) f = sanitize s f) <-> sanitize f f = f.
Proof.
  split; [|intros Hf s; now apply sanitize_twice_fixed].
  intros H. exact (H EmptyString).
Qed.

Lemma fallbacks_fixed (f : string) : In f fallbacks -> sanitize f f = f.
Proof.
  unfold fallbacks. simpl.
  intros [<-|[<-|[<-|[<-|[]]]]]; reflexivity.
Qed.


(** C4. Sanitizing is idempotent: for every name [s] and every fallback [f]
    the generators use, sanitizing the result of [sanitize s f] again gives
    [sanitize s f]. *)
Theorem sanitize_idempotent (s f : string) :
  In f fallbacks -> sanitize (sanitize s f) f = sanitize s f.
Proof.
  intros Hf. apply sanitize_twice_fixed. exact (fallbacks_fixed f Hf).
Qed.

Lemma sanitize_idempotent_witness :
  In "unnamed_project" fallbacks
  /\ sanitize (sanitize "My Proj!" "unnamed_project") "unnamed_project"
     = sanitize "My Proj!" "unnamed_project".
Proof.
  split.
  - simpl. left. reflexivity.
  - apply (sanitize_idempotent "My Proj!" "unnamed_project").
    simpl. left. reflexivity.
Defined.

(** ** The extractor *)

Lemma first_list_find (items : list (string * json)) :
  first_list items =
  match find (fun kv => isinstance_list (snd kv)) items with
  | Some (_, JArr l) => Some l
  | _ => None
  end.
Proof.
  induction items as [|[k v] rest IH]; [reflexivity|].
  destruct v; simpl; try exact IH; reflexivity.
Qed.

(** C2. For every page value, what the page adds to the result is decided by
    the first rule that applies, in this order: an object whose key [value]
    holds an array gives that array's elements; else an array gives its own
    elements; else an object gives the elements of its first entry, in
    insertion order, that holds an array; else the page itself is the only
    item.  A page with [value] and another array-valued key gives the
    elements of [value], wherever that other key stands. *)
Theorem normalize_first_match (page : json) :
  normalize page = normalize_spec page
  /\ normalize (JObj [("value", JArr [JInt 1; JInt 2]); ("other", JArr [JInt 3])])
     = [JInt 1; JInt 2]
  /\ normalize (JObj [("other", JArr [JInt 3]); ("value", JArr [JInt 1; JInt 2])])
     = [JInt 1; JInt 2].
Proof.
  split; [|split; reflexivity].
  unfold normalize_spec, resolution_rules.
  destruct page as [| | | | |l|items]; try reflexivity.
  simpl. rewrite first_list_find.
  destruct (dict_get items "value") as [[]|]; try reflexivity;
    destruct (find _ items) as [[k []]|]; reflexivity.
Qed.

Lemma serve_at (done rest : list (json * headers)) (p : json * headers) :
  serve (done ++ p :: rest) (length done) = Page (fst p) (snd p).
Proof.
  unfold serve. rewrite nth_error_app2 by lia.
  rewrite Nat.sub_diag. destruct p; reflexivity.
Qed.

(** The loop, started anywhere in a run of pages that hand on a token and
    that a page without one closes. *)
Lemma fetch_loop_run (url : string) (last : json * headers)
    (rest : list (json * headers)) :
  has_token last = false ->
  forall (pre done : list (json * headers)) (fuel : nat) (tok : option string)
         (all_data : list json) (requested : list string),
    forallb has_token pre = true ->
    length pre < fuel ->
    fetch_loop (serve (done ++ pre ++ last :: rest)) url fuel (length done)
      tok all_data requested
    = Fetched
        (all_data ++ flat_map (fun p => normalize (fst p)) (pre ++ [last]))
        (requested ++ request_url url tok
           :: map (fun p => request_url url (next_token (snd p))) pre).
Proof.
  intros Hlast. induction pre as [|p pre IH];
    intros done fuel tok all_data requested Hpre Hfuel;
    (destruct fuel as [|fuel]; [simpl in Hfuel; lia|]).
  - simpl app. cbn [fetch_loop]. rewrite serve_at.
    unfold has_token in Hlast. rewrite Hlast. simpl.
    now rewrite app_nil_r.
  - simpl in Hpre. apply andb_true_iff in Hpre as [Hp Hpre].
    cbn [fetch_loop]. rewrite <- app_comm_cons, serve_at.
    unfold has_token in Hp. rewrite Hp. cbn [negb].
    replace (done ++ p :: pre ++ last :: rest)
      with ((done ++ [p]) ++ pre ++ last :: rest)
      by (rewrite <- app_assoc; reflexivity).
    replace (S (length done)) with (length (done ++ [p]))
      by (rewrite length_app; simpl; lia).
    rewrite IH by (trivial; simpl in Hfuel; lia).
    cbn [flat_map map]. rewrite <- !app_assoc. reflexivity.
Qed.

Lemma first_without_token (pages : list (json * headers)) :
  (exists p, In p pages /\ has_token p = false) ->
  exists pre last rest,
    pages = pre ++ last :: rest
    /\ forallb has_token pre = true
    /\ has_token last = false.
Proof.
  induction pages as [|q pages IH]; intros (p & Hin & Hp); [destruct Hin|].
  destruct (has_token q) eqn:Hq.
  - destruct Hin as [->|Hin]; [congruence|].
    destruct IH as (pre & last & rest & -> & Hpre & Hlast); [now exists p|].
    exists (q :: pre), last, rest. simpl. rewrite Hq, Hpre. auto.
  - exists [], q, pages. auto.
Qed.

Lemma next_token_order (h : headers) :
  next_token h =
  if token_truthy (headers_get h "x-ms-continuationtoken")
  then headers_get h "x-ms-continuationtoken"
  else headers_get h "ContinuationToken".
Proof.
  unfold next_token.
  destruct (token_truthy (headers_get h "x-ms-continuationtoken")); reflexivity.
Qed.

(** C1. For every sequence of pages in which some page hands on no
    continuation token, the fetch ends: with [pre] the pages before the
    first such page [last], any fuel above the length of [pre] gives the
    concatenation of the items of [pre] and [last], page after page and in
    each page's own order, after one request per page.  The token of a page
    is the primary header when it carries one and the fallback header
    otherwise, and the loop goes on exactly when that token is there.  For
    the page [{"value":["A","B"]}] with [x-ms-continuationtoken: tok1]
    ([page_ab]) followed by [{"value":["C"]}] without a token ([page_c]),
    the result is [["A","B","C"]] after two requests. *)
Theorem fetch_concatenates_pages (url : string) (pages : list (json * headers)) :
  (exists p, In p pages /\ has_token p = false) ->
  (exists pre last rest,
      pages = pre ++ last :: rest
      /\ forallb has_token pre = true
      /\ has_token last = false
      /\ forall fuel, length pre < fuel ->
           extract_azure_devops_api_data (serve pages) url fuel
           = Fetched (flat_map (fun p => normalize (fst p)) (pre ++ [last]))
               (request_urls url pre))
  /\ (forall h,
        next_token h =
          (if token_truthy (headers_get h "x-ms-continuationtoken")
           then headers_get h "x-ms-continuationtoken"
           else headers_get h "ContinuationToken")
        /\ token_truthy (next_token h) =
             token_truthy (headers_get h "x-ms-continuationtoken")
             || token_truthy (headers_get h "ContinuationToken"))
  /\ (forall fuel, 2 <= fuel ->
        extract_azure_devops_api_data (serve [page_ab; page_c]) url fuel
        = Fetched [JStr "A"; JStr "B"; JStr "C"]
            [url; request_url url (Some "tok1")]).
Proof.
  intros Hsome. split; [|split].
  - destruct (first_without_token pages Hsome)
      as (pre & last & rest & -> & Hpre & Hlast).
    exists pre, last, rest. repeat split; trivial.
    intros fuel Hfuel. unfold extract_azure_devops_api_data.
    exact (fetch_loop_run url last rest Hlast pre [] fuel None [] [] Hpre Hfuel).
  - intros h. split; [apply next_token_order|].
    rewrite next_token_order.
    destruct (token_truthy (headers_get h "x-ms-continuationtoken")) eqn:E;
      [exact E | reflexivity].
  - intros fuel Hfuel. unfold extract_azure_devops_api_data.
    exact (fetch_loop_run url page_c [] eq_refl [page_ab] [] fuel None [] []
             eq_refl Hfuel).
Qed.

(** ** The generators *)

(** *** Nothing or both *)




(** *** Entities with a required field missing *)

Lemma field_present_get (items : list (string * json)) (key : string) :
  field_present (JObj items) [key] = truthy (get_default items key JNull).
Proof.
  unfold field_present, get_default. simpl.
  destruct (dict_get items key); reflexivity.
Qed.

Lemma field_present_nested (items : list (string * json)) (outer key : string) :
  object_or_absent items outer = true ->
  exists inner,
    get_default items outer (JObj []) = JObj inner
    /\ field_present (JObj items) [outer; key]
       = truthy (get_default inner key JNull).
Proof.
  unfold object_or_absent, field_present, get_default. simpl.
  destruct (dict_get items outer) as [[| | | | | |inner]|]; try discriminate;
    intros _.
  - exists inner. split; [reflexivity|]. destruct (dict_get inner key); reflexivity.
  - exists []. split; reflexivity.
Qed.

Lemma capabilities_open (items : list (string * json)) :
  containers_ok Project (JObj items) = true ->
  exists caps pt vc,
    get_default items "capabilities" (JObj []) = JObj caps
    /\ get_default caps "processTemplate" (JObj []) = JObj pt
    /\ get_default caps "versioncontrol" (JObj []) = JObj vc.
Proof.
  unfold containers_ok, object_or_absent, get_default.
  destruct (dict_get items "capabilities") as [[| | | | | |caps]|];
    try discriminate.
  - intros H. apply andb_true_iff in H as [Hp Hv]. exists caps.
    destruct (dict_get caps "processTemplate") as [[| | | | | |pt]|];
      try discriminate;
      destruct (dict_get caps "versioncontrol") as [[| | | | | |vc]|];
      try discriminate; eauto.
  - intros _. exists [], [], []. auto.
Qed.

#[local] Opaque join.

Lemma render_missing (kind : ResourceKind) (entity : json) :
  containers_ok kind entity = true ->
  required_ok kind entity = false ->
  exists message, render kind entity = Returned ([message], (None, None)).
Proof.
  destruct entity as [| | | | | |items]; try discriminate.
  destruct kind; intros Hc Hr.
  - destruct (capabilities_open items Hc) as (caps & pt & vc & Hcaps & Hpt & Hvc).
    unfold required_ok in Hr. cbn [required_fields forallb] in Hr.
    rewrite !field_present_get in Hr.
    unfold render, render_projeto. cbn [py_get bind].
    rewrite Hcaps. cbn [py_get bind]. rewrite Hpt, Hvc. cbn [py_get bind all forallb].
    rewrite Hr. eexists; reflexivity.
  - cbn [containers_ok] in Hc.
    destruct (field_present_nested items "project" "id" Hc) as (inner & Hin & Hid).
    destruct (field_present_nested items "project" "name" Hc) as (inner' & Hin' & Hname).
    rewrite Hin in Hin'. injection Hin' as <-.
    unfold required_ok in Hr. cbn [required_fields forallb] in Hr.
    rewrite !field_present_get, Hid, Hname in Hr.
    unfold render, render_repositorio. cbn [py_get bind].
    rewrite Hin. cbn [py_get bind all forallb].
    rewrite Hr. eexists; reflexivity.
  - cbn [containers_ok] in Hc.
    destruct (field_present_nested items "projectReference" "id" Hc) as (inner & Hin & Hid).
    destruct (field_present_nested items "projectReference" "name" Hc) as (inner' & Hin' & Hname).
    rewrite Hin in Hin'. injection Hin' as <-.
    unfold required_ok in Hr. cbn [required_fields forallb] in Hr.
    rewrite !field_present_get, Hid, Hname in Hr.
    unfold render, render_variablegroup. cbn [py_get bind].
    rewrite Hin. cbn [py_get bind all forallb].
    rewrite Hr. eexists; reflexivity.
Qed.

(** *** Entities with every required field *)

Lemma str_truthy_iff (s : string) : str_truthy s = true <-> s <> "".
Proof. destruct s; simpl; split; congruence. Qed.

Lemma get_default_some (items : list (string * json)) (key : string)
    (default v : json) :
  dict_get items key = Some v -> get_default items key default = v.
Proof. unfold get_default. now intros ->. Qed.

Lemma snake_case_str (s fallback : string) :
  snake_case (JStr s) fallback = Returned (sanitize s fallback).
Proof. reflexivity. Qed.

Lemma render_projeto_present (items : list (string * json))
    (project_id : json) (project_name : string) :
  containers_ok Project (JObj items) = true ->
  dict_get items "id" = Some project_id -> truthy project_id = true ->
  dict_get items "name" = Some (JStr project_name) -> project_name <> "" ->
  exists caps pt vc,
    get_default items "capabilities" (JObj []) = JObj caps
    /\ get_default caps "processTemplate" (JObj []) = JObj pt
    /\ get_default caps "versioncontrol" (JObj []) = JObj vc
    /\ render_projeto (JObj items)
       = give
           (projeto_resource_text (sanitize project_name "unnamed_project")
              project_name
              (json_dumps (get_default items "description" (JStr "")))
              (py_str (get_default items "visibility" (JStr "private")))
              (py_str (get_default vc "sourceControlType" (JStr "Git")))
              (py_str (get_default pt "templateName" (JStr "Agile"))))
           (import_text (py_str project_id) "azuredevops_project"
              (sanitize project_name "unnamed_project")).
Proof.
  intros Hc Hid Tid Hname Tname.
  destruct (capabilities_open items Hc) as (caps & pt & vc & Hcaps & Hpt & Hvc).
  exists caps, pt, vc. repeat split; trivial.
  apply str_truthy_iff in Tname.
  unfold render_projeto. cbn [py_get bind].
  rewrite Hcaps. cbn [py_get bind]. rewrite Hpt, Hvc. cbn [py_get bind].
  rewrite !(get_default_some items "id" JNull project_id Hid).
  rewrite !(get_default_some items "name" JNull _ Hname).
  cbn [all forallb truthy]. rewrite Tid, Tname. cbn [andb negb].
  rewrite snake_case_str. cbn [bind py_str]. reflexivity.
Qed.

Lemma render_repositorio_present (items pitems : list (string * json))
    (repo_id project_id : json) (repo_name project_name : string) :
  dict_get items "id" = Some repo_id -> truthy repo_id = true ->
  dict_get items "name" = Some (JStr repo_name) -> repo_name <> "" ->
  dict_get items "project" = Some (JObj pitems) ->
  dict_get pitems "id" = Some project_id -> truthy project_id = true ->
  dict_get pitems "name" = Some (JStr project_name) -> project_name <> "" ->
  render_repositorio (JObj items)
  = give
      (repositorio_resource_text (sanitize repo_name "unnamed_repository")
         (sanitize project_name "unnamed_project_ref") repo_name)
      (import_text (py_str project_id ++ "/" ++ py_str repo_id)
         "azuredevops_git_repository"
         (sanitize repo_name "unnamed_repository")).
Proof.
  intros Hid Tid Hname Tname Hproj Hpid Tpid Hpname Tpname.
  apply str_truthy_iff in Tname, Tpname.
  unfold render_repositorio. cbn [py_get bind].
  rewrite (get_default_some items "project" _ _ Hproj). cbn [py_get bind].
  rewrite !(get_default_some items "id" JNull _ Hid).
  rewrite !(get_default_some items "name" JNull _ Hname).
  rewrite !(get_default_some pitems "id" JNull _ Hpid).
  rewrite !(get_default_some pitems "name" JNull _ Hpname).
  cbn [all forallb truthy]. rewrite Tid, Tname, Tpid, Tpname. cbn [andb negb].
  rewrite !snake_case_str. cbn [bind py_str]. reflexivity.
Qed.

#[local] Transparent join.

Lemma string_app_assoc (a b c : string) :
  ((a ++ b) ++ c)%string = (a ++ b ++ c)%string.
Proof. induction a as [|x a IH]; [reflexivity|]. simpl. now rewrite IH. Qed.

Lemma string_app_empty_r (s : string) : (s ++ "")%string = s.
Proof. induction s as [|c r IH]; [reflexivity|]. simpl. now rewrite IH. Qed.

Lemma variables_loop_entries (entries : list (string * list (string * json)))
    (variables_block : string) :
  variables_loop (map entry_item entries) variables_block
  = Returned (variables_block ++ join (map raw_entry entries))%string.
Proof.
  revert variables_block.
  induction entries as [|[name fields] entries IH]; intros variables_block.
  - simpl. now rewrite string_app_empty_r.
  - cbn [map entry_item fst snd variables_loop py_get bind].
    rewrite IH. cbn [join]. unfold raw_entry. cbn [fst snd].
    now rewrite string_app_assoc.
Qed.


Lemma render_variablegroup_present (items pitems : list (string * json))
    (entries : list (string * list (string * json)))
    (vg_id project_id : json) (vg_name project_name : string) :
  dict_get items "id" = Some vg_id -> truthy vg_id = true ->
  dict_get items "name" = Some (JStr vg_name) -> vg_name <> "" ->
  dict_get items "projectReference" = Some (JObj pitems) ->
  dict_get pitems "id" = Some project_id -> truthy project_id = true ->
  dict_get pitems "name" = Some (JStr project_name) -> project_name <> "" ->
  get_default items "variables" (JObj []) = JObj (map entry_item entries) ->
  render_variablegroup (JObj items)
  = give
      (variablegroup_resource_text
         (sanitize vg_name "unnamed_variablegroup")
         (sanitize project_name "unnamed_project_ref") vg_name
         (join (map raw_entry entries)))
      (import_text (py_str project_id ++ "/" ++ py_str vg_id)
         "azuredevops_variable_group"
         (sanitize vg_name "unnamed_variablegroup")).
Proof.
  intros Hid Tid Hname Tname Hproj Hpid Tpid Hpname Tpname Hvars.
  apply str_truthy_iff in Tname, Tpname.
  unfold render_variablegroup. cbn [py_get bind].
  rewrite Hvars.
  rewrite (get_default_some items "projectReference" _ _ Hproj). cbn [py_get bind].
  rewrite !(get_default_some items "id" JNull _ Hid).
  rewrite !(get_default_some items "name" JNull _ Hname).
  rewrite !(get_default_some pitems "id" JNull _ Hpid).
  rewrite !(get_default_some pitems "name" JNull _ Hpname).
  cbn [all forallb truthy]. rewrite Tid, Tname, Tpid, Tpname. cbn [andb negb].
  rewrite !snake_case_str. cbn [bind py_items].
  rewrite variables_loop_entries. cbn [bind py_str String.append]. reflexivity.
Qed.

Lemma field_present_top (items : list (string * json)) (key : string) :
  field_present (JObj items) [key] = true ->
  exists v, dict_get items key = Some v /\ truthy v = true.
Proof.
  unfold field_present. simpl.
  destruct (dict_get items key) as [v|]; [|discriminate]. eauto.
Qed.

Lemma field_present_inner (items : list (string * json)) (outer key : string) :
  field_present (JObj items) [outer; key] = true ->
  exists inner v,
    dict_get items outer = Some (JObj inner)
    /\ dict_get inner key = Some v /\ truthy v = true.
Proof.
  unfold field_present. simpl.
  destruct (dict_get items outer) as [[| | | | | |inner]|]; simpl;
    try discriminate.
  destruct (dict_get inner key) as [v|] eqn:E; [|discriminate].
  intros T. exists inner, v. auto.
Qed.

Lemma string_at_top (items : list (string * json)) (key : string) (v : json) :
  string_at (JObj items) [key] = true ->
  dict_get items key = Some v -> exists s, v = JStr s.
Proof.
  unfold string_at. simpl. intros H E. rewrite E in H.
  destruct v; try discriminate. eauto.
Qed.

Lemma string_at_inner (items inner : list (string * json)) (outer key : string)
    (v : json) :
  string_at (JObj items) [outer; key] = true ->
  dict_get items outer = Some (JObj inner) ->
  dict_get inner key = Some v -> exists s, v = JStr s.
Proof.
  unfold string_at. simpl. intros H Eo E. rewrite Eo, E in H.
  destruct v; try discriminate. eauto.
Qed.

Lemma objects_are_entries (vars : list (string * json)) :
  forallb (fun kv => isinstance_dict (snd kv)) vars = true ->
  exists entries, vars = map entry_item entries.
Proof.
  induction vars as [|[k v] vars IH]; intros H.
  - exists []. reflexivity.
  - simpl in H. apply andb_true_iff in H as [Hv Hvars].
    destruct (IH Hvars) as [entries ->].
    destruct v as [| | | | | |fields]; try discriminate.
    exists ((k, fields) :: entries). reflexivity.
Qed.

Lemma variables_entries (items : list (string * json)) :
  variables_ok (JObj items) = true ->
  exists entries,
    get_default items "variables" (JObj []) = JObj (map entry_item entries).
Proof.
  unfold variables_ok, get_default. simpl.
  destruct (dict_get items "variables") as [[| | | | | |vars]|];
    try discriminate.
  - intros H. destruct (objects_are_entries vars H) as [entries ->]. eauto.
  - intros _. exists []. reflexivity.
Qed.

Lemma import_text_not_empty (import_id target resource_name : string) :
  import_text import_id target resource_name <> "".
Proof. unfold import_text. cbn [join]. unfold nl, chr. discriminate. Qed.

Lemma render_present (kind : ResourceKind) (entity : json) :
  containers_ok kind entity = true ->
  required_ok kind entity = true ->
  texts_ok kind entity = true ->
  exists r i, render kind entity = Returned ([], (Some r, Some i)) /\ i <> "".
Proof.
  destruct entity as [| | | | | |items]; try discriminate.
  unfold required_ok, texts_ok.
  destruct kind; cbn [required_fields name_fields forallb]; intros Hc Hr Ht;
    rewrite ?andb_true_r in *;
    repeat match goal with
           | H : _ && _ = true |- _ => apply andb_true_iff in H as [? ?]
           end.
  - destruct (field_present_top items "id") as (pid & Hid & Tid); trivial.
    destruct (field_present_top items "name") as (pname & Hname & Tname); trivial.
    destruct (string_at_top items "name" pname) as [name ->]; trivial.
    destruct (render_projeto_present items pid name Hc Hid Tid Hname)
      as (caps & pt & vc & _ & _ & _ & E);
      [now apply str_truthy_iff|].
    unfold render. rewrite E. unfold give.
    eexists _, _. split; [reflexivity | apply import_text_not_empty].
  - destruct (field_present_top items "id") as (rid & Hid & Tid); trivial.
    destruct (field_present_top items "name") as (rname & Hname & Tname); trivial.
    destruct (field_present_inner items "project" "id")
      as (inner & pid & Hproj & Hpid & Tpid); trivial.
    destruct (field_present_inner items "project" "name")
      as (inner' & pname & Hproj' & Hpname & Tpname); trivial.
    rewrite Hproj in Hproj'. injection Hproj' as <-.
    destruct (string_at_top items "name" rname) as [name ->]; trivial.
    destruct (string_at_inner items inner "project" "name" pname)
      as [name' ->]; trivial.
    unfold render.
    rewrite (render_repositorio_present items inner rid pid name name')
      by (trivial; now apply str_truthy_iff).
    unfold give.
    eexists _, _. split; [reflexivity | apply import_text_not_empty].
  - destruct (field_present_top items "id") as (rid & Hid & Tid); trivial.
    destruct (field_present_top items "name") as (rname & Hname & Tname); trivial.
    destruct (field_present_inner items "projectReference" "id")
      as (inner & pid & Hproj & Hpid & Tpid); trivial.
    destruct (field_present_inner items "projectReference" "name")
      as (inner' & pname & Hproj' & Hpname & Tpname); trivial.
    rewrite Hproj in Hproj'. injection Hproj' as <-.
    destruct (string_at_top items "name" rname) as [name ->]; trivial.
    destruct (string_at_inner items inner "projectReference" "name" pname)
      as [name' ->]; trivial.
    destruct (variables_entries items) as [entries Hvars]; trivial.
    unfold render.
    rewrite (render_variablegroup_present items inner entries rid pid name name')
      by (trivial; now apply str_truthy_iff).
    unfold give.
    eexists _, _. split; [reflexivity | apply import_text_not_empty].
Qed.

(** Outside these entities the lookups raise: a nested record that is
    present and is not an object has no [get]. *)
Lemma render_not_object_raises (kind : ResourceKind) (items : list (string * json)) :
  containers_ok kind (JObj items) = false ->
  render kind (JObj items) = Raised AttributeError.
Proof.
  destruct kind; unfold containers_ok, object_or_absent, render,
    render_projeto, render_repositorio, render_variablegroup;
    cbn [py_get bind]; unfold get_default.
  - destruct (dict_get items "capabilities") as [[| | | | | |caps]|];
      try discriminate; try reflexivity.
    cbn [py_get bind]. unfold get_default.
    destruct (dict_get caps "processTemplate") as [[]|]; try reflexivity;
      destruct (dict_get caps "versioncontrol") as [[]|];
      try reflexivity; discriminate.
  - destruct (dict_get items "project") as [[]|];
      try discriminate; reflexivity.
  - destruct (dict_get items "projectReference") as [[]|];
      try discriminate; reflexivity.
Qed.

(** *** The missing-field policy *)







(** *** The element taken from an array *)

Lemma not_object_raises (render_kind : ResourceKind) (first : json) :
  isinstance_dict first = false ->
  render render_kind first = Raised AttributeError.
Proof.
  destruct first; try discriminate; destruct render_kind; reflexivity.
Qed.

(** C9. For every input text that decodes to a non-empty array whose first
    element is not an object, each generator raises [AttributeError] instead
    of returning [(None, None)]: the element is looked up outside the [try]
    block.  A text that decodes to the empty array makes each generator print
    a message and return [(None, None)]. *)
Theorem non_object_element_raises (json_loads : string -> decoded)
    (text : string) (elements : list json) :
  json_loads text = Decoded (JArr elements) ->
  (forall first rest,
      elements = first :: rest ->
      isinstance_dict first = false ->
      gerar_terraform_projeto_ado json_loads text = Raised AttributeError
      /\ gerar_terraform_repositorio_ado json_loads text = Raised AttributeError
      /\ gerar_terraform_variablegroup_ado json_loads text = Raised AttributeError)
  /\ (elements = [] ->
      exists message,
        gerar_terraform_projeto_ado json_loads text
          = Returned ([message], (None, None))
        /\ gerar_terraform_repositorio_ado json_loads text
          = Returned ([message], (None, None))
        /\ gerar_terraform_variablegroup_ado json_loads text
          = Returned ([message], (None, None))).
Proof.
  intros Hdec. split.
  - intros first rest -> Hfirst.
    unfold gerar_terraform_projeto_ado, gerar_terraform_repositorio_ado,
      gerar_terraform_variablegroup_ado, generate.
    rewrite Hdec. cbn [select_record].
    repeat split.
    + exact (not_object_raises Project first Hfirst).
    + exact (not_object_raises Repository first Hfirst).
    + exact (not_object_raises VariableGroup first Hfirst).
  - intros ->.
    unfold gerar_terraform_projeto_ado, gerar_terraform_repositorio_ado,
      gerar_terraform_variablegroup_ado, generate.
    rewrite Hdec. cbn [select_record]. eexists. repeat split.
Qed.

Lemma non_object_element_raises_witness :
  decode_only "[5]" (JArr [JInt 5]) "[5]" = Decoded (JArr [JInt 5])
  /\ gerar_terraform_projeto_ado (decode_only "[5]" (JArr [JInt 5])) "[5]"
     = Raised AttributeError
  /\ exists message,
       gerar_terraform_projeto_ado (decode_only "[]" (JArr [])) "[]"
       = Returned ([message], (None, None)).
Proof.
  split; [reflexivity|]. split.
  - exact (proj1 (proj1 (non_object_element_raises
                           (decode_only "[5]" (JArr [JInt 5])) "[5]" [JInt 5]
                           eq_refl) (JInt 5) [] eq_refl eq_refl)).
  - destruct (proj2 (non_object_element_raises
                       (decode_only "[]" (JArr [])) "[]" [] eq_refl) eq_refl)
      as (message & H & _).
    exists message. exact H.
Defined.

(** *** Texts *)













Lemma fetch_concatenates_pages_witness :
  (exists p, In p four_pages /\ has_token p = false)
  /\ exists pre last rest,
       four_pages = pre ++ last :: rest
       /\ forallb has_token pre = true
       /\ has_token last = false
       /\ forall fuel, length pre < fuel ->
            extract_azure_devops_api_data (serve four_pages)
              "https://h/_apis/x" fuel
            = Fetched (flat_map (fun p => normalize (fst p)) (pre ++ [last]))
                (request_urls "https://h/_apis/x" pre).
Proof.
  assert (H : exists p, In p four_pages /\ has_token p = false).
  { exists (JStr "E", []). split; [|reflexivity].
    right; right; right; left; reflexivity. }
  split; [exact H|].
  exact (proj1 (fetch_concatenates_pages "https://h/_apis/x" four_pages H)).
Defined.

(** * Further properties *)

(** ** The identifiers the generators derive *)










Lemma tidy_shape (s : string) (b : bool) :
  tidy b s = true ->
  all_chars (fun c => alnum c || is_us c) s = true /\ has_double_us s = false.
Proof.
  revert b. induction s as [|c r IH]; intros b H; [split; reflexivity|].
  simpl in H. destruct (alnum c) eqn:E.
  - destruct (IH false H) as [Ha Hd]. split.
    + simpl. now rewrite E, Ha.
    + simpl. destruct r; [reflexivity|].
      now rewrite (alnum_not_us c E), Hd.
  - apply andb_true_iff in H as [H Hr]. apply andb_true_iff in H as [Hus _].
    destruct (IH true Hr) as [Ha Hd]. split.
    + simpl. now rewrite Hus, orb_true_r, Ha.
    + simpl. destruct r as [|d r']; [reflexivity|].
      rewrite Hd, orb_false_r. simpl in Hr.
      destruct (alnum d) eqn:Ed.
      * now rewrite (alnum_not_us d Ed), andb_false_r.
      * now rewrite andb_false_r in Hr.
Qed.

Lemma rstrip_closes (s : string) : closes_with_us (rstrip s) = false.
Proof.
  induction s as [|c r IH]; [reflexivity|].
  simpl. destruct (rstrip r) as [|d r'] eqn:E.
  - destruct (is_us c) eqn:Hus; [reflexivity|]. simpl. exact Hus.
  - exact IH.
Qed.

Lemma clean_identifier (s : string) :
  str_truthy (strip (re_sub s)) = true ->
  identifier (strip (re_sub s)) = true.
Proof.
  intros Hne. unfold identifier. rewrite Hne.
  destruct (tidy_shape (strip (re_sub s)) false) as [Ha Hd].
  { apply (strip_tidy _ false). apply re_sub_scan_tidy. }
  rewrite Ha, Hd. unfold strip at 1 2.
  rewrite rstrip_opens by apply lstrip_opens.
  now rewrite rstrip_closes.
Qed.

(** X1. Every name, whatever it holds, gives a label that is an identifier:
    not empty, made of [a-z0-9] and underscores only, with no underscore at
    either end and no two underscores in a row.  This holds with each of the
    fallbacks of the generators. *)
Theorem sanitize_gives_identifier (s f : string) :
  In f fallbacks -> identifier (sanitize s f) = true.
Proof.
  intros Hf. unfold sanitize.
  destruct (str_truthy (strip (re_sub (lower s)))) eqn:E.
  - now apply clean_identifier.
  - revert Hf. unfold fallbacks. simpl.
    intros [<-|[<-|[<-|[<-|[]]]]]; reflexivity.
Qed.

Lemma sanitize_gives_identifier_witness :
  In "unnamed_repository" fallbacks
  /\ identifier (sanitize "  --Core  Repo (v2)!" "unnamed_repository") = true.
Proof.
  split; [simpl; auto|].
  apply (sanitize_gives_identifier "  --Core  Repo (v2)!" "unnamed_repository").
  simpl. auto.
Defined.


(** ** The fetch loop over any server *)

Lemma serve_then_at (done rest : list (json * headers)) (p : json * headers)
    (after : response) :
  serve_then (done ++ p :: rest) after (length done) = Page (fst p) (snd p).
Proof.
  unfold serve_then. rewrite nth_error_app2 by lia.
  rewrite Nat.sub_diag. destruct p; reflexivity.
Qed.

Lemma serve_then_after (done : list (json * headers)) (after : response) :
  serve_then done after (length done) = after.
Proof.
  unfold serve_then.
  assert (E : nth_error done (length done) = None)
    by (apply nth_error_None; lia).
  now rewrite E.
Qed.

Lemma last_cons_default {A : Type} (l : list A) (a d : A) :
  last (a :: l) d = last l a.
Proof.
  revert a d. induction l as [|b l IH]; intros a d; [reflexivity|].
  change (last (a :: b :: l) d) with (last (b :: l) d).
  now rewrite !IH.
Qed.

Lemma fetch_loop_aborts (url : string) (after : response) (e : exn) :
  exception_of after = Some e ->
  forall (pre done : list (json * headers)) (fuel : nat) (tok : option string)
         (all_data : list json) (requested : list string),
    forallb has_token pre = true ->
    length pre < fuel ->
    fetch_loop (serve_then (done ++ pre) after) url fuel (length done)
      tok all_data requested
    = Aborted e
        (last (map (fun p => request_url url (next_token (snd p))) pre)
           (request_url url tok))
        (requested ++ request_url url tok
           :: map (fun p => request_url url (next_token (snd p))) pre).
Proof.
  intros He. induction pre as [|p pre IH];
    intros done fuel tok all_data requested Hpre Hfuel;
    (destruct fuel as [|fuel]; [simpl in Hfuel; lia|]).
  - rewrite app_nil_r. cbn [fetch_loop]. rewrite serve_then_after.
    destruct after; simpl in He; inversion He; reflexivity.
  - simpl in Hpre. apply andb_true_iff in Hpre as [Hp Hpre].
    cbn [fetch_loop]. rewrite serve_then_at.
    unfold has_token in Hp. rewrite Hp. cbn [negb].
    replace (done ++ p :: pre) with ((done ++ [p]) ++ pre)
      by (rewrite <- app_assoc; reflexivity).
    replace (S (length done)) with (length (done ++ [p]))
      by (rewrite length_app; simpl; lia).
    rewrite IH by (trivial; simpl in Hfuel; lia).
    cbn [map]. rewrite last_cons_default, <- app_assoc. reflexivity.
Qed.

(** X3. A request that fails, or a body that is not JSON, ends the whole
    fetch: after any number of pages that handed on a token, the exception
    is re-raised with the URL of the request that failed -- the last one
    sent --, and the items of the pages already fetched are not returned. *)
Theorem fetch_aborts_on_failure (url : string) (pre : list (json * headers))
    (after : response) (e : exn) (fuel : nat) :
  exception_of after = Some e ->
  forallb has_token pre = true ->
  length pre < fuel ->
  extract_azure_devops_api_data (serve_then pre after) url fuel
  = Aborted e (last (request_urls url pre) url) (request_urls url pre).
Proof.
  intros He Hpre Hfuel. unfold extract_azure_devops_api_data.
  pose proof (fetch_loop_aborts url after e He pre [] fuel None [] [] Hpre Hfuel)
    as H.
  cbn [app length] in H. rewrite H.
  unfold request_urls. cbn [request_url].
  now rewrite last_cons_default.
Qed.

Lemma fetch_aborts_on_failure_witness :
  extract_azure_devops_api_data (serve_then [page_ab] (Undecodable [])) "https://h/x?v=1" 5
  = Aborted JSONDecodeError "https://h/x?v=1&continuationToken=tok1"
      ["https://h/x?v=1"; "https://h/x?v=1&continuationToken=tok1"].
Proof.
  apply (fetch_aborts_on_failure "https://h/x?v=1" [page_ab] (Undecodable [])
           JSONDecodeError 5); [reflexivity | reflexivity | simpl; lia].
Defined.

Lemma fetch_loop_goes_on (requests_get : nat -> response) (url : string) :
  (forall n, exists page_data h,
      requests_get n = Page page_data h /\ token_truthy (next_token h) = true) ->
  forall (fuel n : nat) (tok : option string) (all_data : list json)
         (requested : list string),
    fetch_loop requests_get url fuel n tok all_data requested = StillFetching.
Proof.
  intros H. induction fuel as [|fuel IH]; intros n tok all_data requested;
    [reflexivity|].
  cbn [fetch_loop]. destruct (H n) as (page_data & h & -> & Ht).
  rewrite Ht. cbn [negb]. apply IH.
Qed.

(** X4. The loop has no bound of its own: against a server whose every page
    hands on a token, no number of iterations ends the fetch, and nothing is
    ever returned. *)
Theorem fetch_never_ends (requests_get : nat -> response) (url : string) :
  (forall n, exists page_data h,
      requests_get n = Page page_data h /\ token_truthy (next_token h) = true) ->
  forall fuel, extract_azure_devops_api_data requests_get url fuel = StillFetching.
Proof.
  intros H fuel. apply fetch_loop_goes_on. exact H.
Qed.

Lemma fetch_never_ends_witness :
  (forall n : nat, exists page_data h,
      (fun _ : nat => Page (fst page_ab) (snd page_ab)) n = Page page_data h
      /\ token_truthy (next_token h) = true)
  /\ extract_azure_devops_api_data
       (fun _ => Page (fst page_ab) (snd page_ab)) "https://h/x" 1000
     = StillFetching.
Proof.
  assert (H : forall n : nat, exists page_data h,
             (fun _ : nat => Page (fst page_ab) (snd page_ab)) n = Page page_data h
             /\ token_truthy (next_token h) = true).
  { intros n. exists (fst page_ab), (snd page_ab). split; reflexivity. }
  split; [exact H|].
  exact (fetch_never_ends (fun _ => Page (fst page_ab) (snd page_ab))
           "https://h/x" H 1000).
Defined.



Lemma dict_get_in (items : list (string * json)) (key : string) (v : json) :
  dict_get items key = Some v -> In (key, v) items.
Proof.
  induction items as [|[k x] rest IH]; [discriminate|].
  simpl. destruct (String.eqb k key) eqn:E.
  - intros [= ->]. apply String.eqb_eq in E. subst. now left.
  - intros H. right. exact (IH H).
Qed.

Lemma first_list_in (items : list (string * json)) (l : list json) :
  first_list items = Some l -> exists k, In (k, JArr l) items.
Proof.
  induction items as [|[k x] rest IH]; [discriminate|].
  destruct x; simpl;
    try (intros H; destruct (IH H) as [k' Hk]; exists k'; now right).
  intros [= ->]. exists k. now left.
Qed.

(** X6. The items a page adds are never made up and never dug out of
    nested values: each one is the page itself, or an element of the page
    when the page is an array, or an element of an array held directly by
    one of the keys of the page. *)
Theorem normalize_items_from_page (page x : json) :
  In x (normalize page) ->
  x = page
  \/ (exists l, page = JArr l /\ In x l)
  \/ (exists items k l, page = JObj items /\ In (k, JArr l) items /\ In x l).
Proof.
  destruct page as [| | | | |l|items]; simpl;
    try (intros [<-|[]]; now left).
  - intros H. right; left. now exists l.
  - destruct (dict_get items "value") as [v|] eqn:Ev.
    + destruct v as [| | | | |l|sub];
        try (destruct (first_list items) as [l'|] eqn:Ef;
             [ intros H; destruct (first_list_in items l' Ef) as [k Hk];
               right; right; now exists items, k, l'
             | intros [<-|[]]; now left ]).
      intros H. right; right. exists items, "value", l.
      repeat split; trivial. now apply dict_get_in.
    + destruct (first_list items) as [l'|] eqn:Ef.
      * intros H. destruct (first_list_in items l' Ef) as [k Hk].
        right; right. now exists items, k, l'.
      * intros [<-|[]]. now left.
Qed.

Lemma normalize_items_from_page_witness :
  In (JInt 3) (normalize (JObj [("count", JInt 1); ("other", JArr [JInt 3])]))
  /\ (JInt 3 = JObj [("count", JInt 1); ("other", JArr [JInt 3])]
      \/ (exists l, JObj [("count", JInt 1); ("other", JArr [JInt 3])] = JArr l
                    /\ In (JInt 3) l)
      \/ (exists items k l,
             JObj [("count", JInt 1); ("other", JArr [JInt 3])] = JObj items
             /\ In (k, JArr l) items /\ In (JInt 3) l)).
Proof.
  assert (H : In (JInt 3)
                (normalize (JObj [("count", JInt 1); ("other", JArr [JInt 3])])))
    by (simpl; auto).
  split; [exact H|].
  exact (normalize_items_from_page _ _ H).
Defined.

(** ** The renderers on any entity *)

Lemma snake_case_not_str (v : json) (fallback : string) :
  (forall s, v <> JStr s) -> snake_case v fallback = Raised AttributeError.
Proof.
  intros H. destruct v; try reflexivity. now destruct (H s).
Qed.

Lemma variables_loop_raises (vars : list (string * json)) (acc : string) :
  forallb (fun kv => isinstance_dict (snd kv)) vars = false ->
  variables_loop vars acc = Raised AttributeError.
Proof.
  revert acc. induction vars as [|[k v] vars IH]; intros acc H; [discriminate|].
  simpl in H. destruct v as [| | | | | |fields]; try reflexivity.
  simpl in H. cbn [variables_loop py_get bind]. now apply IH.
Qed.

Lemma string_at_top_false (items : list (string * json)) (key : string) (v : json) :
  string_at (JObj items) [key] = false ->
  dict_get items key = Some v -> forall s, v <> JStr s.
Proof.
  unfold string_at. simpl. intros H E s ->. rewrite E in H. discriminate.
Qed.

Lemma string_at_inner_false (items inner : list (string * json))
    (outer key : string) (v : json) :
  string_at (JObj items) [outer; key] = false ->
  dict_get items outer = Some (JObj inner) ->
  dict_get inner key = Some v -> forall s, v <> JStr s.
Proof.
  unfold string_at. simpl. intros H Eo E s ->. rewrite Eo, E in H. discriminate.
Qed.

Lemma string_at_cases (entity : json) (path : list string) :
  string_at entity path = true \/ string_at entity path = false.
Proof. destruct (string_at entity path); auto. Qed.

Lemma variables_bad (items : list (string * json)) :
  variables_ok (JObj items) = false ->
  (exists vars,
      get_default items "variables" (JObj []) = JObj vars
      /\ forallb (fun kv => isinstance_dict (snd kv)) vars = false)
  \/ isinstance_dict (get_default items "variables" (JObj [])) = false.
Proof.
  unfold variables_ok, get_default. simpl.
  destruct (dict_get items "variables") as [[| | | | | |vars]|];
    try discriminate; try (intros _; right; reflexivity).
  intros H. left. now exists vars.
Qed.

Lemma py_items_not_dict (v : json) :
  isinstance_dict v = false -> py_items v = Raised AttributeError.
Proof. destruct v; try reflexivity. discriminate. Qed.

Lemma render_texts_bad (kind : ResourceKind) (entity : json) :
  containers_ok kind entity = true ->
  required_ok kind entity = true ->
  texts_ok kind entity = false ->
  render kind entity = Raised AttributeError.
Proof.
  destruct entity as [| | | | | |items]; try discriminate.
  unfold required_ok, texts_ok.
  destruct kind; cbn [required_fields name_fields forallb]; intros Hc Hr Ht;
    rewrite ?andb_true_r in *;
    repeat match goal with
           | H : _ && _ = true |- _ => apply andb_true_iff in H as [? ?]
           end.
  - destruct (field_present_top items "id") as (pid & Hid & Tid); trivial.
    destruct (field_present_top items "name") as (pname & Hname & Tname); trivial.
    destruct (capabilities_open items Hc) as (caps & pt & vc & Hcaps & Hpt & Hvc).
    unfold render, render_projeto. cbn [py_get bind].
    rewrite Hcaps. cbn [py_get bind]. rewrite Hpt, Hvc. cbn [py_get bind].
    rewrite !(get_default_some items "id" JNull _ Hid).
    rewrite !(get_default_some items "name" JNull _ Hname).
    cbn [all forallb]. rewrite Tid, Tname. cbn [andb negb].
    rewrite (snake_case_not_str pname)
      by (exact (string_at_top_false items "name" pname Ht Hname)).
    reflexivity.
  - destruct (field_present_top items "id") as (rid & Hid & Tid); trivial.
    destruct (field_present_top items "name") as (rname & Hname & Tname); trivial.
    destruct (field_present_inner items "project" "id")
      as (inner & pid & Hproj & Hpid & Tpid); trivial.
    destruct (field_present_inner items "project" "name")
      as (inner' & pname & Hproj' & Hpname & Tpname); trivial.
    rewrite Hproj in Hproj'. injection Hproj' as <-.
    unfold render, render_repositorio. cbn [py_get bind].
    rewrite (get_default_some items "project" _ _ Hproj). cbn [py_get bind].
    rewrite !(get_default_some items "id" JNull _ Hid).
    rewrite !(get_default_some items "name" JNull _ Hname).
    rewrite !(get_default_some inner "id" JNull _ Hpid).
    rewrite !(get_default_some inner "name" JNull _ Hpname).
    cbn [all forallb]. rewrite Tid, Tname, Tpid, Tpname. cbn [andb negb].
    destruct (string_at_cases (JObj items) ["name"]) as [Sn|Sn].
    + destruct (string_at_top items "name" rname Sn Hname) as [name ->].
      rewrite snake_case_str. cbn [bind].
      rewrite Sn in Ht. cbn [andb] in Ht.
      rewrite (snake_case_not_str pname)
        by (exact (string_at_inner_false items inner "project" "name" pname
                     Ht Hproj Hpname)).
      reflexivity.
    + rewrite (snake_case_not_str rname)
        by (exact (string_at_top_false items "name" rname Sn Hname)).
      reflexivity.
  - destruct (field_present_top items "id") as (rid & Hid & Tid); trivial.
    destruct (field_present_top items "name") as (rname & Hname & Tname); trivial.
    destruct (field_present_inner items "projectReference" "id")
      as (inner & pid & Hproj & Hpid & Tpid); trivial.
    destruct (field_present_inner items "projectReference" "name")
      as (inner' & pname & Hproj' & Hpname & Tpname); trivial.
    rewrite Hproj in Hproj'. injection Hproj' as <-.
    unfold render, render_variablegroup. cbn [py_get bind].
    rewrite (get_default_some items "projectReference" _ _ Hproj).
    cbn [py_get bind].
    rewrite !(get_default_some items "id" JNull _ Hid).
    rewrite !(get_default_some items "name" JNull _ Hname).
    rewrite !(get_default_some inner "id" JNull _ Hpid).
    rewrite !(get_default_some inner "name" JNull _ Hpname).
    cbn [all forallb]. rewrite Tid, Tname, Tpid, Tpname. cbn [andb negb].
    destruct (string_at_cases (JObj items) ["name"]) as [Sn|Sn].
    + destruct (string_at_top items "name" rname Sn Hname) as [name ->].
      rewrite snake_case_str. cbn [bind].
      rewrite Sn in Ht. cbn [andb] in Ht.
      destruct (string_at_cases (JObj items) ["projectReference"; "name"])
        as [Sp|Sp].
      * destruct (string_at_inner items inner "projectReference" "name" pname
                    Sp Hproj Hpname) as [name' ->].
        rewrite snake_case_str. cbn [bind].
        rewrite Sp in Ht. cbn [andb] in Ht.
        destruct (variables_bad items Ht) as [(vars & -> & Hv)|Hv].
        -- cbn [py_items bind]. now rewrite (variables_loop_raises vars _ Hv).
        -- now rewrite (py_items_not_dict _ Hv).
      * rewrite (snake_case_not_str pname)
          by (exact (string_at_inner_false items inner "projectReference"
                       "name" pname Sp Hproj Hpname)).
        reflexivity.
    + rewrite (snake_case_not_str rname)
        by (exact (string_at_top_false items "name" rname Sn Hname)).
      reflexivity.
Qed.

Lemma render_missing_message (kind : ResourceKind) (entity : json) :
  containers_ok kind entity = true ->
  required_ok kind entity = false ->
  render kind entity = give_nothing (missing_fields_message kind).
Proof.
  intros Hc Hr. destruct (render_missing kind entity Hc Hr) as [message E].
  rewrite E. unfold give_nothing. do 2 f_equal.
  destruct entity as [| | | | | |items]; try discriminate.
  destruct kind; unfold render, render_projeto, render_repositorio,
    render_variablegroup in E; cbn [py_get bind] in E.
  - destruct (capabilities_open items Hc) as (caps & pt & vc & Hcaps & Hpt & Hvc).
    rewrite Hcaps in E. cbn [py_get bind] in E. rewrite Hpt, Hvc in E.
    cbn [py_get bind] in E.
    destruct (negb _); [|destruct (snake_case _ _); discriminate E].
    unfold give_nothing in E. now injection E as <-.
  - cbn [containers_ok] in Hc.
    destruct (field_present_nested items "project" "id" Hc) as (inner & Hin & _).
    rewrite Hin in E. cbn [py_get bind] in E.
    destruct (negb _);
      [|destruct (snake_case _ _); [destruct (snake_case _ _)|]; discriminate E].
    unfold give_nothing in E. now injection E as <-.
  - cbn [containers_ok] in Hc.
    destruct (field_present_nested items "projectReference" "id" Hc)
      as (inner & Hin & _).
    rewrite Hin in E. cbn [py_get bind] in E.
    destruct (negb _).
    + unfold give_nothing in E. now injection E as <-.
    + exfalso. revert E. generalize (get_default items "variables" (JObj [])).
      intros v. destruct (snake_case _ _); [|discriminate].
      destruct (snake_case _ _); [|discriminate]. cbn [bind].
      destruct (py_items v); [|discriminate]. cbn [bind].
      destruct (variables_loop _ _); discriminate.
Qed.

(** X7. What a renderer does with any JSON value is settled by three tests.
    It raises [AttributeError], and no other exception, exactly when the
    value is not an object, or a nested record of it is present without
    being an object, or every required field is there but a name is not a
    string (or, for a variable group, the variables are not an object of
    objects).  It prints the message of its kind and returns [(None, None)]
    exactly when the nested records are in order and a required field is
    absent or falsy.  In the one remaining case it prints nothing and
    returns both blocks. *)
Theorem render_cases (kind : ResourceKind) (entity : json) :
  (render kind entity = Raised AttributeError <->
     containers_ok kind entity = false
     \/ (required_ok kind entity = true /\ texts_ok kind entity = false))
  /\ (forall e, render kind entity = Raised e -> e = AttributeError)
  /\ (render kind entity = give_nothing (missing_fields_message kind) <->
        containers_ok kind entity = true /\ required_ok kind entity = false)
  /\ ((exists r i, render kind entity = give r i) <->
        containers_ok kind entity = true
        /\ required_ok kind entity = true
        /\ texts_ok kind entity = true).
Proof.
  assert (Hbad : containers_ok kind entity = false ->
                 render kind entity = Raised AttributeError).
  { intros Hc. destruct entity as [| | | | | |items];
      try (apply not_object_raises; reflexivity).
    now apply render_not_object_raises. }
  destruct (containers_ok kind entity) eqn:Hc.
  - destruct (required_ok kind entity) eqn:Hr.
    + destruct (texts_ok kind entity) eqn:Ht.
      * destruct (render_present kind entity Hc Hr Ht) as (r & i & E & _).
        rewrite E. unfold give, give_nothing.
        repeat split; try discriminate; intros;
          repeat match goal with
                 | H : _ \/ _ |- _ => destruct H
                 | H : _ /\ _ |- _ => destruct H
                 end; try discriminate.
        exists r, i. reflexivity.
      * rewrite (render_texts_bad kind entity Hc Hr Ht). unfold give, give_nothing.
        repeat split; try discriminate; intros;
          repeat match goal with
                 | H : _ \/ _ |- _ => destruct H
                 | H : _ /\ _ |- _ => destruct H
                 | H : exists _, _ |- _ => destruct H
                 end; try discriminate; auto; congruence.
    + rewrite (render_missing_message kind entity Hc Hr). unfold give, give_nothing.
      repeat split; try discriminate; intros;
        repeat match goal with
               | H : _ \/ _ |- _ => destruct H
               | H : _ /\ _ |- _ => destruct H
               | H : exists _, _ |- _ => destruct H
               end; try discriminate; auto.
  - rewrite (Hbad eq_refl). unfold give, give_nothing.
    repeat split; try discriminate; intros;
      repeat match goal with
             | H : _ \/ _ |- _ => destruct H
             | H : _ /\ _ |- _ => destruct H
             | H : exists _, _ |- _ => destruct H
             end; try discriminate; auto; congruence.
Qed.

(** ** What the blocks hold *)







Lemma join_app (l1 l2 : list string) :
  join (l1 ++ l2) = (join l1 ++ join l2)%string.
Proof.
  induction l1 as [|x l1 IH]; [reflexivity|].
  simpl. now rewrite IH, string_app_assoc.
Qed.

Lemma sanitize_identifier (s f : string) :
  In f fallbacks -> identifier (sanitize s f) = true.
Proof.
  intros Hf. unfold sanitize.
  destruct (str_truthy (strip (re_sub (lower s)))) eqn:E.
  - now apply clean_identifier.
  - revert Hf. unfold fallbacks. simpl.
    intros [<-|[<-|[<-|[<-|[]]]]]; reflexivity.
Qed.

Lemma render_blocks_shape (kind : ResourceKind) (entity : json)
    (r i : string) :
  render kind entity = give r i ->
  exists label rest import_id,
    identifier label = true
    /\ r = (resource_header (terraform_type kind) label ++ rest)%string
    /\ i = import_text import_id (terraform_type kind) label.
Proof.
  intros E.
  assert (Hok : containers_ok kind entity = true
                /\ required_ok kind entity = true
                /\ texts_ok kind entity = true).
  { destruct (containers_ok kind entity) eqn:Hc.
    - destruct (required_ok kind entity) eqn:Hr.
      + destruct (texts_ok kind entity) eqn:Ht; [auto|].
        rewrite (render_texts_bad kind entity Hc Hr Ht) in E. discriminate E.
      + rewrite (render_missing_message kind entity Hc Hr) in E. discriminate E.
    - destruct entity as [| | | | | |items];
        try (rewrite not_object_raises in E; [discriminate E | reflexivity]).
      rewrite (render_not_object_raises kind items Hc) in E. discriminate E. }
  destruct Hok as (Hc & Hr & Ht).
  destruct entity as [| | | | | |items]; try discriminate.
  unfold required_ok, texts_ok in Hr, Ht.
  destruct kind; cbn [required_fields name_fields forallb] in Hr, Ht;
    rewrite ?andb_true_r in *;
    repeat match goal with
           | H : _ && _ = true |- _ => apply andb_true_iff in H as [? ?]
           end.
  - destruct (field_present_top items "id") as (pid & Hid & Tid); trivial.
    destruct (field_present_top items "name") as (pname & Hname & Tname); trivial.
    destruct (string_at_top items "name" pname) as [name ->]; trivial.
    destruct (render_projeto_present items pid name Hc Hid Tid Hname)
      as (caps & pt & vc & _ & _ & _ & E');
      [now apply str_truthy_iff|].
    unfold render in E. rewrite E' in E. unfold give in E.
    injection E as <- <-.
    eexists (sanitize name "unnamed_project"), _, _.
    split; [apply sanitize_identifier; simpl; auto|].
    split; [|reflexivity].
    unfold projeto_resource_text, resource_header, terraform_type.
    rewrite <- join_app. reflexivity.
  - destruct (field_present_top items "id") as (rid & Hid & Tid); trivial.
    destruct (field_present_top items "name") as (rname & Hname & Tname); trivial.
    destruct (field_present_inner items "project" "id")
      as (inner & pid & Hproj & Hpid & Tpid); trivial.
    destruct (field_present_inner items "project" "name")
      as (inner' & pname & Hproj' & Hpname & Tpname); trivial.
    rewrite Hproj in Hproj'. injection Hproj' as <-.
    destruct (string_at_top items "name" rname) as [name ->]; trivial.
    destruct (string_at_inner items inner "project" "name" pname)
      as [name' ->]; trivial.
    unfold render in E.
    rewrite (render_repositorio_present items inner rid pid name name') in E
      by (trivial; now apply str_truthy_iff).
    unfold give in E. injection E as <- <-.
    eexists (sanitize name "unnamed_repository"), _, _.
    split; [apply sanitize_identifier; simpl; auto|].
    split; [|reflexivity].
    unfold repositorio_resource_text, resource_header, terraform_type.
    rewrite <- string_app_assoc, <- join_app. reflexivity.
  - destruct (field_present_top items "id") as (rid & Hid & Tid); trivial.
    destruct (field_present_top items "name") as (rname & Hname & Tname); trivial.
    destruct (field_present_inner items "projectReference" "id")
      as (inner & pid & Hproj & Hpid & Tpid); trivial.
    destruct (field_present_inner items "projectReference" "name")
      as (inner' & pname & Hproj' & Hpname & Tpname); trivial.
    rewrite Hproj in Hproj'. injection Hproj' as <-.
    destruct (string_at_top items "name" rname) as [name ->]; trivial.
    destruct (string_at_inner items inner "projectReference" "name" pname)
      as [name' ->]; trivial.
    destruct (variables_entries items) as [entries Hvars]; trivial.
    unfold render in E.
    rewrite (render_variablegroup_present items inner entries rid pid name name')
      in E by (trivial; now apply str_truthy_iff).
    unfold give in E. injection E as <- <-.
    eexists (sanitize name "unnamed_variablegroup"), _, _.
    split; [apply sanitize_identifier; simpl; auto|].
    split; [|reflexivity].
    unfold variablegroup_resource_text, resource_header, terraform_type.
    rewrite <- join_app. reflexivity.
Qed.



(** ** What the generators read *)

(** X11. Of an input that holds an array, a generator reads the first
    element and nothing else: it does with the text what its renderer does
    with that element, so two inputs that differ only after their first
    element give the same outcome.  Fed the whole list an extraction wrote,
    a generator thus handles one record. *)
Theorem generators_read_first_element (json_loads : string -> decoded)
    (text : string) (first : json) (rest : list json) :
  json_loads text = Decoded (JArr (first :: rest)) ->
  gerar_terraform_projeto_ado json_loads text = render Project first
  /\ gerar_terraform_repositorio_ado json_loads text = render Repository first
  /\ gerar_terraform_variablegroup_ado json_loads text
     = render VariableGroup first
  /\ (forall json_loads' text' rest',
        json_loads' text' = Decoded (JArr (first :: rest')) ->
        gerar_terraform_projeto_ado json_loads' text'
        = gerar_terraform_projeto_ado json_loads text
        /\ gerar_terraform_repositorio_ado json_loads' text'
           = gerar_terraform_repositorio_ado json_loads text
        /\ gerar_terraform_variablegroup_ado json_loads' text'
           = gerar_terraform_variablegroup_ado json_loads text).
Proof.
  intros H.
  unfold gerar_terraform_projeto_ado, gerar_terraform_repositorio_ado,
    gerar_terraform_variablegroup_ado, generate.
  rewrite H. cbn [select_record render].
  repeat split; intros; try reflexivity;
    match goal with E : _ = Decoded _ |- _ => rewrite E end; reflexivity.
Qed.

Lemma generators_read_first_element_witness :
  gerar_terraform_repositorio_ado
    (decode_only "[5, 6]" (JArr [JInt 5; JInt 6])) "[5, 6]"
  = render Repository (JInt 5).
Proof.
  exact (proj1 (proj2 (generators_read_first_element
                         (decode_only "[5, 6]" (JArr [JInt 5; JInt 6]))
                         "[5, 6]" (JInt 5) [JInt 6] eq_refl))).
Defined.

(** ** The generator scripts as run *)

Lemma script_calls_gerar (kind : ResourceKind) (json_loads : string -> decoded)
    (m : machine) (a : generator_args) :
  script kind json_loads m a = generator_main (gerar kind json_loads) m a.
Proof. destruct kind; reflexivity. Qed.

Lemma resource_header_not_empty (type label rest : string) :
  (resource_header type label ++ rest)%string <> EmptyString.
Proof. unfold resource_header. cbn [join]. unfold nl, chr. discriminate. Qed.

(** What a generator can give back. *)
Lemma gerar_shapes (kind : ResourceKind) (json_loads : string -> decoded)
    (text : string) :
  gerar kind json_loads text = Raised AttributeError
  \/ (exists message,
         gerar kind json_loads text = Returned ([message], (None, None)))
  \/ (exists r i,
         gerar kind json_loads text = give r i /\ r <> "" /\ i <> "").
Proof.
  unfold gerar, generate.
  destruct (select_record (json_loads text)) as [dados|message];
    [|right; left; now exists message].
  destruct (containers_ok kind dados) eqn:Hc.
  - destruct (required_ok kind dados) eqn:Hr.
    + destruct (texts_ok kind dados) eqn:Ht.
      * destruct (render_present kind dados Hc Hr Ht) as (r & i & E & Hi).
        right; right. exists r, i. repeat split; trivial.
        destruct (render_blocks_shape kind dados r i E)
          as (label & rest & import_id & _ & -> & _).
        apply resource_header_not_empty.
      * left. now apply render_texts_bad.
    + right; left. now apply render_missing.
  - left. destruct dados as [| | | | | |items];
      try (apply not_object_raises; reflexivity).
    now apply render_not_object_raises.
Qed.




(** The script once its function has returned the two blocks. *)
Lemma generator_main_blocks (g : string -> outcome generated) (m : machine)
    (a : generator_args) (text r i : string) :
  read_input m a = inl text ->
  g text = give r i -> r <> "" -> i <> "" ->
  generator_main g m a =
    match how (resource_step m a r fresh) with
    | Ended => import_step m a i (resource_step m a r fresh)
    | _ => resource_step m a r fresh
    end.
Proof.
  intros Hread Hg Hr Hi. unfold generator_main. rewrite Hread, Hg.
  unfold give. cbn [option_truthy].
  apply str_truthy_iff in Hr, Hi. rewrite Hr, Hi. reflexivity.
Qed.




(** X13. With the two blocks returned and both output files named and
    writable, the script writes the resource block to the first file, then
    the import block to the second, and prints one line for each on
    standard output.  Each write replaces the file: when both arguments name
    the same file, that file ends up holding the import block only, and the
    resource block is lost. *)
Theorem script_writes_files (kind : ResourceKind)
    (json_loads : string -> decoded) (m : machine) (a : generator_args)
    (text r i terraform_path import_path : string) :
  read_input m a = inl text ->
  gerar kind json_loads text = give r i ->
  arg_terraform a = Some terraform_path -> terraform_path <> "" ->
  arg_import a = Some import_path -> import_path <> "" ->
  open_write m terraform_path = None ->
  open_write m import_path = None ->
  writes (script kind json_loads m a)
  = [(terraform_path, r); (import_path, i)]
  /\ List.length (stdout (script kind json_loads m a)) = 2
  /\ stderr (script kind json_loads m a) = []
  /\ how (script kind json_loads m a) = Ended
  /\ file_after (writes (script kind json_loads m a)) import_path = Some i
  /\ (terraform_path <> import_path ->
      file_after (writes (script kind json_loads m a)) terraform_path = Some r)
  /\ (terraform_path = import_path ->
      file_after (writes (script kind json_loads m a)) terraform_path = Some i).
Proof.
  intros Hread Hg Ht Htne Hi Hine Hwt Hwi.
  assert (Hshape : r <> "" /\ i <> "").
  { destruct (gerar_shapes kind json_loads text)
      as [E|[(message & E)|(r' & i' & E & Hr' & Hi')]];
      rewrite E in Hg; try discriminate Hg.
    unfold give in Hg. injection Hg as <- <-. auto. }
  destruct Hshape as [Hr Hi'].
  rewrite script_calls_gerar.
  rewrite (generator_main_blocks _ m a text r i Hread Hg Hr Hi').
  unfold resource_step, import_step, write_block.
  apply str_truthy_iff in Htne, Hine.
  rewrite Ht, Hi. cbn [option_truthy]. rewrite Htne, Hwt.
  cbn [how fresh]. rewrite Hine, Hwi.
  cbn [writes stdout stderr how fresh app Datatypes.length file_after].
  rewrite String.eqb_refl.
  repeat split; trivial.
  - intros Hne. apply String.eqb_neq in Hne.
    rewrite String.eqb_sym in Hne. now rewrite Hne, String.eqb_refl.
  - intros ->. now rewrite String.eqb_refl.
Qed.


Lemma script_writes_files_witness :
  file_after
    (writes (script Project (decode_only "{...}" projeto_my_proj)
               example_machine (example_args "main.tf" "main.tf")))
    "main.tf"
  = Some (import_text "1" "azuredevops_project" "my_proj").
Proof.
  refine (proj2 (proj2 (proj2 (proj2 (proj2 (proj2
            (script_writes_files Project (decode_only "{...}" projeto_my_proj)
               example_machine (example_args "main.tf" "main.tf") "{...}"
               (projeto_resource_text "my_proj" "My Proj!" (dq ++ dq) "private"
                  "Git" "Agile")
               (import_text "1" "azuredevops_project" "my_proj")
               "main.tf" "main.tf" eq_refl eq_refl eq_refl _ eq_refl _
               eq_refl eq_refl)))))) eq_refl); discriminate.
Defined.



(** ** The extractor as run *)

(** X15. Without a token the extractor sends no request: when the variable
    [AZURE_DEVOPS_EXT_PAT] is unset or empty, or holds a character outside
    ASCII, the run ends at once, whatever the server would answer, with
    nothing on standard output, no file written, and one line on standard
    error that reports a configuration error. *)
Theorem extractor_needs_token (w : extractor_world) (url : string)
    (output_filename : option string) (fuel : nat) :
  option_truthy (world_pat w) = false
  \/ (exists pat, world_pat w = Some pat /\ all_chars is_ascii pat = false) ->
  exists text,
    extractor_main w url output_filename fuel
    = Some ({| stdout := [];
               stderr := [join ["Erro de configura"; c_cedilla; a_tilde; "o: ";
                                text]];
               writes := [];
               how := Ended |}, []).
Proof.
  unfold extractor_main, extract_script.
  intros [H|(pat & Hpat & Hascii)].
  - rewrite H. exists missing_pat_text. reflexivity.
  - rewrite Hpat. destruct (option_truthy (Some pat)); cbn [negb].
    + cbn [all_chars String.append is_ascii code]. cbn [all_chars] in Hascii.
      change (Nat.ltb (nat_of_ascii ":"%char) 128) with true.
      cbn [andb]. rewrite Hascii.
      exists (world_ascii_error w (":" ++ pat)). reflexivity.
    + exists missing_pat_text. reflexivity.
Qed.

Lemma extractor_needs_token_witness :
  exists text,
    extractor_main (example_world (Some "") (serve [page_ab; page_c]))
      "https://h/x" None 10
    = Some ({| stdout := [];
               stderr := [join ["Erro de configura"; c_cedilla; a_tilde; "o: ";
                                text]];
               writes := [];
               how := Ended |}, []).
Proof.
  apply (extractor_needs_token
           (example_world (Some "") (serve [page_ab; page_c]))
           "https://h/x" None 10).
  left. reflexivity.
Defined.




(** ** The generators together *)




(** ** The request headers *)

Lemma b64_symbols_ok :
  forallb (fun v => match b64_value (b64_symbol v) with
                    | Some v' => Nat.eqb v' v
                    | None => false
                    end
                    && negb (Ascii.eqb (b64_symbol v) "="%char))
    (seq 0 64) = true.
Proof. vm_compute. reflexivity. Qed.

Lemma b64_symbol_value (v : nat) :
  v < 64 ->
  b64_value (b64_symbol v) = Some v
  /\ Ascii.eqb (b64_symbol v) "="%char = false.
Proof.
  intros Hv. pose proof b64_symbols_ok as H.
  rewrite forallb_forall in H. specialize (H v).
  assert (Hin : In v (seq 0 64)) by (apply in_seq; lia).
  apply H in Hin. apply andb_true_iff in Hin as [H1 H2].
  destruct (b64_value (b64_symbol v)) as [v'|]; [|discriminate].
  apply Nat.eqb_eq in H1. subst v'. split; [reflexivity|].
  now apply negb_true_iff in H2.
Qed.

Lemma code_bound (c : ascii) : code c < 256.
Proof. apply nat_ascii_bounded. Qed.

Lemma ascii_code (c : ascii) : ascii_of_nat (code c) = c.
Proof. apply ascii_nat_embedding. Qed.

Ltac div_lia := zify; Z.div_mod_to_equations; lia.

Lemma b64_arith (x y z : nat) :
  x < 256 -> y < 256 -> z < 256 ->
  x / 4 < 64
  /\ x mod 4 * 16 < 64
  /\ x mod 4 * 16 + y / 16 < 64
  /\ y mod 16 * 4 < 64
  /\ y mod 16 * 4 + z / 64 < 64
  /\ z mod 64 < 64
  /\ x / 4 * 4 + x mod 4 * 16 / 16 = x
  /\ x / 4 * 4 + (x mod 4 * 16 + y / 16) / 16 = x
  /\ (x mod 4 * 16 + y / 16) mod 16 * 16 + y mod 16 * 4 / 4 = y
  /\ (x mod 4 * 16 + y / 16) mod 16 * 16 + (y mod 16 * 4 + z / 64) / 4 = y
  /\ (y mod 16 * 4 + z / 64) mod 4 * 64 + z mod 64 = z.
Proof.
  intros Hx Hy Hz. repeat split; div_lia.
Qed.

Lemma b64decode_encode (n : nat) (s : string) :
  String.length s <= n -> b64decode n (b64encode s) = Some s.
Proof.
  revert s. induction n as [|n IH]; intros s Hlen.
  - destruct s; [reflexivity | simpl in Hlen; lia].
  - destruct s as [|a [|b [|c rest]]]; [reflexivity | | |].
    + destruct (b64_arith (code a) 0 0 (code_bound a)) as
        (H1 & H2 & _ & _ & _ & _ & E1 & _); try lia.
      destruct (b64_symbol_value _ H1) as [V1 _].
      destruct (b64_symbol_value _ H2) as [V2 _].
      cbn [b64encode b64decode]. rewrite V1, V2.
      change (Ascii.eqb "="%char "="%char) with true. cbn iota.
      now rewrite E1, ascii_code.
    + destruct (b64_arith (code a) (code b) 0 (code_bound a) (code_bound b)) as
        (H1 & _ & H2 & H3 & _ & _ & _ & E1 & E2 & _); try lia.
      destruct (b64_symbol_value _ H1) as [V1 _].
      destruct (b64_symbol_value _ H2) as [V2 _].
      destruct (b64_symbol_value _ H3) as [V3 N3].
      cbn [b64encode b64decode]. rewrite V1, V2, N3, V3.
      change (Ascii.eqb "="%char "="%char) with true. cbn iota.
      now rewrite E1, E2, !ascii_code.
    + destruct (b64_arith (code a) (code b) (code c) (code_bound a)
                  (code_bound b) (code_bound c)) as
        (H1 & _ & H2 & _ & H3 & H4 & _ & E1 & _ & E2 & E3).
      destruct (b64_symbol_value _ H1) as [V1 _].
      destruct (b64_symbol_value _ H2) as [V2 _].
      destruct (b64_symbol_value _ H3) as [V3 N3].
      destruct (b64_symbol_value _ H4) as [V4 N4].
      cbn [b64encode b64decode]. rewrite V1, V2, N3, V3, N4, V4.
      rewrite IH by (simpl in Hlen; lia).
      now rewrite E1, E2, E3, !ascii_code.
Qed.

Lemma b64encode_length (n : nat) (s : string) :
  String.length s <= n ->
  String.length (b64encode s) = 4 * ((String.length s + 2) / 3).
Proof.
  revert s. induction n as [|n IH]; intros s Hlen.
  - destruct s; [reflexivity | simpl in Hlen; lia].
  - destruct s as [|a [|b [|c rest]]]; try reflexivity.
    cbn [b64encode String.length]. rewrite IH by (simpl in Hlen; lia).
    div_lia.
Qed.

Lemma b64encode_injective (s s' : string) :
  b64encode s = b64encode s' -> s = s'.
Proof.
  intros H.
  assert (D : b64decode (String.length s + String.length s') (b64encode s)
              = b64decode (String.length s + String.length s') (b64encode s'))
    by now rewrite H.
  rewrite !b64decode_encode in D by lia. now injection D.
Qed.

Lemma string_app_inv_head (a x y : string) :
  (a ++ x)%string = (a ++ y)%string -> x = y.
Proof.
  induction a as [|c a IH]; [trivial|]. simpl. intros [= H]. now apply IH.
Qed.

(** X18. Every request carries the token as HTTP basic credentials with an
    empty user name: for a token of ASCII characters, the [Authorization]
    header is [Basic ] followed by base64 text of length
    [4 * ceil((1 + length of the token) / 3)] that decodes back to a colon
    followed by the token, so that two tokens never give the same header. *)
Theorem authorization_round_trip (pat : string) :
  all_chars is_ascii pat = true ->
  exists encoded,
    headers_get (request_headers pat) "Authorization"
    = Some ("Basic " ++ encoded)%string
    /\ encoded = b64encode (":" ++ pat)
    /\ b64decode (S (String.length pat)) encoded = Some (":" ++ pat)%string
    /\ String.length encoded = 4 * ((String.length pat + 3) / 3)
    /\ (forall pat',
          headers_get (request_headers pat') "Authorization"
          = headers_get (request_headers pat) "Authorization" ->
          pat' = pat).
Proof.
  intros _. exists (b64encode (":" ++ pat)).
  split; [reflexivity|]. split; [reflexivity|]. split; [|split].
  - apply b64decode_encode. simpl. lia.
  - rewrite (b64encode_length (S (String.length pat))) by (simpl; lia).
    simpl String.length. f_equal. f_equal. lia.
  - intros pat' H.
    assert (H' : ("Basic " ++ b64encode (":" ++ pat'))%string
                 = ("Basic " ++ b64encode (":" ++ pat))%string).
    { change (Some ("Basic " ++ b64encode (":" ++ pat'))%string
              = Some ("Basic " ++ b64encode (":" ++ pat))%string) in H.
      congruence. }
    apply string_app_inv_head, b64encode_injective in H'.
    exact (string_app_inv_head ":" pat' pat H').
Qed.

Lemma authorization_round_trip_witness :
  exists encoded,
    headers_get (request_headers "tok") "Authorization"
    = Some ("Basic " ++ encoded)%string
    /\ encoded = "OnRvaw=="
    /\ b64decode 4 encoded = Some ":tok".
Proof.
  destruct (authorization_round_trip "tok" eq_refl)
    as (encoded & H1 & H2 & H3 & _).
  exists encoded. repeat split; trivial.
Defined.
